(** * Gutenberg books API: the filter, count, sort and page engine of [get_books]

    A shallow embedding of [src/main.py].  Python values are modelled as
    follows: [str] as [string] (the development covers ASCII text), [int] as
    [Z], [Optional[str]] as [option string], lists as [list].  The relational
    store behind the SQLAlchemy session is a record of tables; a query is
    evaluated by explicit joins, a WHERE condition, DISTINCT, ORDER BY,
    OFFSET and LIMIT on lists of rows. *)

From Stdlib Require Import ZArith List String Ascii Bool Lia Permutation Sorted.
Import ListNotations.
Local Open Scope string_scope.
Local Open Scope list_scope.
Local Open Scope Z_scope.

(** ** Python string operations used by the source *)

Module Py.

(** [bool(value)] for an [Optional[str]]: [None] and [""] are falsy. *)
Definition truthy (value : option string) : bool :=
  match value with
  | None => false
  | Some "" => false
  | Some _ => true
  end.

(** The ASCII characters [str.isspace] accepts: tab, line feed, vertical
    tab, form feed, carriage return, the four separators 0x1c..0x1f and
    the space. *)
Definition isspace (c : ascii) : bool :=
  let n := nat_of_ascii c in
  ((9 <=? n)%nat && (n <=? 13)%nat) || ((28 <=? n)%nat && (n <=? 32)%nat).

Fixpoint lstrip (s : string) : string :=
  match s with
  | "" => ""
  | String c r => if isspace c then lstrip r else s
  end.

Fixpoint rstrip (s : string) : string :=
  match s with
  | "" => ""
  | String c r =>
      match rstrip r with
      | "" => if isspace c then "" else String c ""
      | r' => String c r'
      end
  end.

(** [s.strip()] *)
Definition strip (s : string) : string := rstrip (lstrip s).

(** [s.split(',')]: one field per comma, plus one. *)
Fixpoint split_comma (s : string) : list string :=
  match s with
  | "" => [""]
  | String c r =>
      if Ascii.eqb c "," then "" :: split_comma r
      else match split_comma r with
           | h :: t => String c h :: t
           | [] => [String c ""]
           end
  end.

Definition digit (c : ascii) : option Z :=
  let n := nat_of_ascii c in
  if ((48 <=? n)%nat && (n <=? 57)%nat)%bool then Some (Z.of_nat (n - 48)) else None.

(** The digits after a first digit: more digits, each optionally preceded
    by one underscore. *)
Fixpoint int_tail (acc : Z) (s : string) : option Z :=
  match s with
  | "" => Some acc
  | String c r =>
      match digit c with
      | Some d => int_tail (acc * 10 + d) r
      | None =>
          if Ascii.eqb c "_" then
            match r with
            | String c' r' =>
                match digit c' with
                | Some d => int_tail (acc * 10 + d) r'
                | None => None
                end
            | "" => None
            end
          else None
      end
  end.

Definition int_unsigned (s : string) : option Z :=
  match s with
  | String c r =>
      match digit c with
      | Some d => int_tail d r
      | None => None
      end
  | "" => None
  end.

(** The number of digit characters of [s]. *)
Fixpoint digit_count (s : string) : Z :=
  match s with
  | "" => 0
  | String c r =>
      match digit c with
      | Some _ => 1 + digit_count r
      | None => digit_count r
      end
  end.

(** The default limit of [int] on the digits of its argument (signs,
    blanks and underscores are not counted, leading zeros are). *)
Definition int_max_str_digits : Z := 4300.

(** [int(s)] in base ten: surrounding whitespace, an optional sign, then
    digits, at most [int_max_str_digits] of them.  [None] stands for the
    [ValueError] Python raises. *)
Definition int (s : string) : option Z :=
  if int_max_str_digits <? digit_count s then None
  else
    match strip s with
    | String "+" r => int_unsigned r
    | String "-" r => option_map Z.opp (int_unsigned r)
    | t => int_unsigned t
    end.

(** [[f(x) for x in l]] where [f] may raise: the first failure aborts. *)
Fixpoint map_raise {A B} (f : A -> option B) (l : list A) : option (list B) :=
  match l with
  | [] => Some []
  | x :: r =>
      match f x with
      | None => None
      | Some y =>
          match map_raise f r with
          | None => None
          | Some ys => Some (y :: ys)
          end
      end
  end.

(** [a // b] and the [ZeroDivisionError] it raises for [b = 0]. *)
Definition floordiv (a b : Z) : option Z :=
  if b =? 0 then None else Some (a / b).

End Py.

(** [parse_comma_separated] (main.py, lines 161-164). *)
Definition parse_comma_separated (value : option string) : list string :=
  if negb (Py.truthy value) then []
  else
    match value with
    | None => []
    | Some v =>
        map Py.strip
          (filter (fun v => Py.truthy (Some (Py.strip v))) (Py.split_comma v))
    end.

(** ** The SQL string operators used by the source *)

Module Sql.

(** [lower(x)] on ASCII text. *)
Definition lower_char (c : ascii) : ascii :=
  let n := nat_of_ascii c in
  if ((65 <=? n)%nat && (n <=? 90)%nat)%bool then ascii_of_nat (n + 32) else c.

Fixpoint lower (s : string) : string :=
  match s with
  | "" => ""
  | String c r => String (lower_char c) (lower r)
  end.

(** [s LIKE p] with the default escape character: [%] matches any run of
    characters, [_] any single character, a backslash makes the next
    pattern character literal.  A pattern that ends in a lone backslash is
    rejected by the store; [like] is [false] there, and the patterns
    [get_books] builds always end in an added [%]. *)
Fixpoint like (p s : string) {struct p} : bool :=
  match p with
  | "" => match s with "" => true | _ => false end
  | String "%" p' =>
      (fix any (s : string) : bool :=
         like p' s || match s with
                      | "" => false
                      | String _ s' => any s'
                      end) s
  | String "_" p' =>
      match s with
      | "" => false
      | String _ s' => like p' s'
      end
  | String "\" "" => false
  | String "\" (String c p') =>
      match s with
      | "" => false
      | String d s' => Ascii.eqb c d && like p' s'
      end
  | String c p' =>
      match s with
      | "" => false
      | String d s' => Ascii.eqb c d && like p' s'
      end
  end.

End Sql.

(** ** The data model (main.py, lines 23-99)

    One record per mapped class, one list of key pairs per association
    table.  [title] is the only text column the response model reads as
    optional ([book.title or "Unknown"]); the columns the response models
    declare as [str] ([name], [code], [mime_type], [url]) hold text, and
    [download_count] (default 0) holds an integer.  A row of an association
    table whose key is NULL joins with nothing and is left out. *)

Module Book.
Record t := { id : Z; title : option string; download_count : Z }.

Definition eq_dec (a b : t) : {a = b} + {a <> b}.
Proof.
  decide equality; try apply Z.eq_dec.
  decide equality. apply string_dec.
Defined.
End Book.

Module Author.
Record t := { id : Z; name : string; birth_year : option Z; death_year : option Z }.
End Author.

Module Subject.
Record t := { id : Z; name : string }.
End Subject.

Module Bookshelf.
Record t := { id : Z; name : string }.
End Bookshelf.

Module Language.
Record t := { id : Z; code : string }.
End Language.

Module Format.
Record t := { id : Z; mime_type : string; url : string; book_id : Z }.
End Format.

Record Store := {
  books : list Book.t;
  authors : list Author.t;
  subjects : list Subject.t;
  bookshelves : list Bookshelf.t;
  languages : list Language.t;
  formats : list Format.t;
  book_authors : list (Z * Z);
  book_subjects : list (Z * Z);
  book_bookshelves : list (Z * Z);
  book_languages : list (Z * Z)
}.

(** [Book.id] is the primary key of [books_book]. *)
Definition primary_key (db : Store) : Prop := NoDup (map Book.id (books db)).

(** The rows a JOIN over a many-to-many relationship attaches to a book:
    the association rows of the book, each joined with the target rows of
    that key (one joined row per association row). *)
Definition related {T} (key : T -> Z) (table : list T) (assoc : list (Z * Z))
    (b : Book.t) : list T :=
  flat_map (fun link =>
              if fst link =? Book.id b
              then filter (fun x => key x =? snd link) table
              else [])
           assoc.

(** The collection a relationship attribute of a loaded book holds: the
    rows of the target table that an association row links to the book, each
    of them once, in the order of their table. *)
Definition loaded {T} (key : T -> Z) (table : list T) (assoc : list (Z * Z))
    (b : Book.t) : list T :=
  filter (fun x =>
            existsb (fun link => (fst link =? Book.id b) && (snd link =? key x)) assoc)
         table.

Definition Book_authors db := loaded Author.id (authors db) (book_authors db).
Definition Book_subjects db := loaded Subject.id (subjects db) (book_subjects db).
Definition Book_bookshelves db :=
  loaded Bookshelf.id (bookshelves db) (book_bookshelves db).
Definition Book_languages db := loaded Language.id (languages db) (book_languages db).

(** [query.join(Book.languages)] *)
Definition Book_languages_join db :=
  related Language.id (languages db) (book_languages db).
Definition Book_formats db (b : Book.t) : list Format.t :=
  filter (fun f => Format.book_id f =? Book.id b) (formats db).

(** ** Response models (main.py, lines 102-134) *)

Record AuthorInfo := {
  ai_name : string; ai_birth_year : option Z; ai_death_year : option Z
}.

Record DownloadLink := { dl_mime_type : string; dl_url : string }.

Record BookResponse := {
  br_id : Z;
  br_title : string;
  br_authors : list AuthorInfo;
  br_genres : list string;
  br_languages : list string;
  br_subjects : list string;
  br_bookshelves : list string;
  br_download_links : list DownloadLink
}.

Record BooksListResponse := {
  count : Z;
  results : list BookResponse;
  page : Z;
  total_pages : Z
}.

(** ** Queries

    The SQL expressions the source builds ([in_], [like], [any], [or_],
    [and_]) as a syntax tree, and their truth on a row of the joined query. *)

#[local] Set Warnings "-register-all".
Inductive Cond :=
| Book_id_in (ids : list Z)
| Language_code_in (codes : list string)
| Format_mime_type_in (types : list string)
| Subjects_any_id_in_like (pattern : string)
| Bookshelves_any_id_in_like (pattern : string)
| Authors_any_name_like (pattern : string)
| Title_like (pattern : string)
| or_ (cs : list Cond)
| and_ (cs : list Cond).

(** A row of [books_book], joined with [books_language] and [books_format]
    when the query asked for these joins. *)
Record Row := {
  row_book : Book.t;
  row_language : option Language.t;
  row_format : option Format.t
}.

(** [func.lower(x).like(func.lower(pattern))] *)
Definition ilike (x pattern : string) : bool :=
  Sql.like (Sql.lower pattern) (Sql.lower x).

Fixpoint holds (db : Store) (r : Row) (c : Cond) : bool :=
  match c with
  | Book_id_in ids => existsb (Z.eqb (Book.id (row_book r))) ids
  | Language_code_in codes =>
      match row_language r with
      | Some l => existsb (String.eqb (Language.code l)) codes
      | None => false
      end
  | Format_mime_type_in types =>
      match row_format r with
      | Some f => existsb (String.eqb (Format.mime_type f)) types
      | None => false
      end
  | Subjects_any_id_in_like pattern =>
      let subject_match :=
        map Subject.id (filter (fun s => ilike (Subject.name s) pattern) (subjects db)) in
      existsb (fun s => existsb (Z.eqb (Subject.id s)) subject_match)
              (Book_subjects db (row_book r))
  | Bookshelves_any_id_in_like pattern =>
      let bookshelf_match :=
        map Bookshelf.id
            (filter (fun s => ilike (Bookshelf.name s) pattern) (bookshelves db)) in
      existsb (fun s => existsb (Z.eqb (Bookshelf.id s)) bookshelf_match)
              (Book_bookshelves db (row_book r))
  | Authors_any_name_like pattern =>
      existsb (fun a => ilike (Author.name a) pattern) (Book_authors db (row_book r))
  | Title_like pattern =>
      match Book.title (row_book r) with
      | Some t => ilike t pattern
      | None => false
      end
  | or_ cs => existsb (holds db r) cs
  | and_ cs => forallb (holds db r) cs
  end.

(** The query object: which joins were added, the WHERE clause, and the
    DISTINCT, ORDER BY, OFFSET and LIMIT settings. *)
Record Query := {
  q_join_languages : bool;
  q_join_formats : bool;
  q_where : option Cond;
  q_distinct : bool;
  q_order_by_download_count_desc : bool;
  q_offset : option nat;
  q_limit : option nat
}.

Module Q.

(** [db.query(Book)]; the [joinedload] options only say how the related
    collections of the selected books are fetched. *)
Definition query_Book : Query :=
  {| q_join_languages := false; q_join_formats := false; q_where := None;
     q_distinct := false; q_order_by_download_count_desc := false;
     q_offset := None; q_limit := None |}.

Definition join_languages (q : Query) : Query :=
  {| q_join_languages := true; q_join_formats := q_join_formats q;
     q_where := q_where q; q_distinct := q_distinct q;
     q_order_by_download_count_desc := q_order_by_download_count_desc q;
     q_offset := q_offset q; q_limit := q_limit q |}.

Definition join_formats (q : Query) : Query :=
  {| q_join_languages := q_join_languages q; q_join_formats := true;
     q_where := q_where q; q_distinct := q_distinct q;
     q_order_by_download_count_desc := q_order_by_download_count_desc q;
     q_offset := q_offset q; q_limit := q_limit q |}.

Definition filter_ (q : Query) (c : Cond) : Query :=
  {| q_join_languages := q_join_languages q; q_join_formats := q_join_formats q;
     q_where := Some c; q_distinct := q_distinct q;
     q_order_by_download_count_desc := q_order_by_download_count_desc q;
     q_offset := q_offset q; q_limit := q_limit q |}.

Definition distinct (q : Query) : Query :=
  {| q_join_languages := q_join_languages q; q_join_formats := q_join_formats q;
     q_where := q_where q; q_distinct := true;
     q_order_by_download_count_desc := q_order_by_download_count_desc q;
     q_offset := q_offset q; q_limit := q_limit q |}.

Definition order_by_download_count_desc (q : Query) : Query :=
  {| q_join_languages := q_join_languages q; q_join_formats := q_join_formats q;
     q_where := q_where q; q_distinct := q_distinct q;
     q_order_by_download_count_desc := true;
     q_offset := q_offset q; q_limit := q_limit q |}.

Definition offset (q : Query) (n : nat) : Query :=
  {| q_join_languages := q_join_languages q; q_join_formats := q_join_formats q;
     q_where := q_where q; q_distinct := q_distinct q;
     q_order_by_download_count_desc := q_order_by_download_count_desc q;
     q_offset := Some n; q_limit := q_limit q |}.

Definition limit (q : Query) (n : nat) : Query :=
  {| q_join_languages := q_join_languages q; q_join_formats := q_join_formats q;
     q_where := q_where q; q_distinct := q_distinct q;
     q_order_by_download_count_desc := q_order_by_download_count_desc q;
     q_offset := q_offset q; q_limit := Some n |}.

(** FROM and JOIN: each book, paired with each of its languages and each
    of its formats when joined. *)
Definition from_rows (db : Store) (q : Query) : list Row :=
  flat_map (fun b =>
    let ls :=
      if q_join_languages q then map Some (Book_languages_join db b) else [None] in
    let fs := if q_join_formats q then map Some (Book_formats db b) else [None] in
    flat_map (fun l =>
      map (fun f => {| row_book := b; row_language := l; row_format := f |}) fs) ls)
    (books db).

(** WHERE, then the projection on the columns of [books_book], then
    DISTINCT. *)
Definition selected (db : Store) (q : Query) : list Book.t :=
  let rows :=
    match q_where q with
    | Some c => filter (fun r => holds db r c) (from_rows db q)
    | None => from_rows db q
    end in
  let bs := map row_book rows in
  if q_distinct q then nodup Book.eq_dec bs else bs.

(** [query.count()] *)
Definition count (db : Store) (q : Query) : Z :=
  Z.of_nat (List.length (selected db q)).

(** Stable insertion by decreasing [download_count]. *)
Fixpoint insert_desc (b : Book.t) (l : list Book.t) : list Book.t :=
  match l with
  | [] => [b]
  | x :: r =>
      if Book.download_count x <=? Book.download_count b
      then b :: l
      else x :: insert_desc b r
  end.

Definition sort_desc (l : list Book.t) : list Book.t :=
  fold_right insert_desc [] l.

(** [query.all()].  ORDER BY fixes the order of the rows only as far as
    the sort key decides it: in which order the store hands over rows of
    equal key is not part of the query.  [arrival] is the order in which
    the store produces the selected rows for this execution; the rows are
    then put in order of the key, rows of equal key staying in arrival
    order. *)
Definition all (arrival : list Book.t -> list Book.t) (db : Store) (q : Query)
  : list Book.t :=
  let bs := arrival (selected db q) in
  let bs := if q_order_by_download_count_desc q then sort_desc bs else bs in
  let bs := match q_offset q with Some n => skipn n bs | None => bs end in
  match q_limit q with Some n => firstn n bs | None => bs end.

End Q.

(** An execution of the store may produce the selected rows in any order,
    but produces each of them. *)
Definition arrival_order := list Book.t -> list Book.t.

Definition lossless (arrival : arrival_order) : Prop :=
  forall l, Permutation l (arrival l).

(** ** The endpoint (main.py, lines 176-329) *)

Module Req.
(** The query parameters of [GET /books]. *)
Record t := {
  book_id : option string;
  language : option string;
  mime_type : option string;
  topic : option string;
  author : option string;
  title : option string;
  page : Z;
  page_size : Z
}.
End Req.

(** The exceptions that can leave [get_books]: [int] on a malformed token,
    the store refusing a value ([DataError], a [DBAPIError]), and [//] by
    zero. *)
Inductive Exn := ValueError | DBAPIError | ZeroDivisionError.

(** The store counts rows, and reads OFFSET and LIMIT, as 64-bit integers:
    it raises on a value beyond [max_bigint], and on a negative OFFSET or
    LIMIT. *)
Definition max_bigint : Z := 9223372036854775807.

(** [f"%{t}%"] *)
Definition percent (t : string) : string := ("%" ++ t ++ "%")%string.

(** [book.title or "Unknown"] *)
Definition title_or_Unknown (t : option string) : string :=
  match t with
  | Some s => if Py.truthy t then s else "Unknown"
  | None => "Unknown"
  end.

(** The [BookResponse] built for one selected book (lines 298-317). *)
Definition book_response (db : Store) (book : Book.t) : BookResponse :=
  {| br_id := Book.id book;
     br_title := title_or_Unknown (Book.title book);
     br_authors :=
       map (fun a => {| ai_name := Author.name a;
                        ai_birth_year := Author.birth_year a;
                        ai_death_year := Author.death_year a |})
           (Book_authors db book);
     br_genres := map Subject.name (Book_subjects db book);
     br_languages := map Language.code (Book_languages db book);
     br_subjects := map Subject.name (Book_subjects db book);
     br_bookshelves := map Bookshelf.name (Book_bookshelves db book);
     br_download_links :=
       map (fun f => {| dl_mime_type := Format.mime_type f; dl_url := Format.url f |})
           (Book_formats db book) |}.

(** The first half of [get_books] (lines 198-283): the joins and the WHERE
    clause built from the parameters, up to [query.distinct()]. *)
Definition compose_query (rq : Req.t) : Exn + Query :=
  let query := Q.query_Book in
  let filters : list Cond := [] in
  (* Book ID filter *)
  match (if Py.truthy (Req.book_id rq)
         then match Py.map_raise Py.int (parse_comma_separated (Req.book_id rq)) with
              | Some book_ids => inr (filters ++ [Book_id_in book_ids])
              | None => inl ValueError
              end
         else inr filters) with
  | inl e => inl e
  | inr filters =>
      (* Language filter *)
      let '(query, filters) :=
        if Py.truthy (Req.language rq)
        then (Q.join_languages query,
              filters ++ [Language_code_in (parse_comma_separated (Req.language rq))])
        else (query, filters) in
      (* Mime-type filter *)
      let '(query, filters) :=
        if Py.truthy (Req.mime_type rq)
        then (Q.join_formats query,
              filters ++ [Format_mime_type_in (parse_comma_separated (Req.mime_type rq))])
        else (query, filters) in
      (* Topic filter (subjects OR bookshelves) *)
      let filters :=
        if Py.truthy (Req.topic rq)
        then
          let topic_conditions :=
            map (fun t => or_ [Subjects_any_id_in_like (percent t);
                               Bookshelves_any_id_in_like (percent t)])
                (parse_comma_separated (Req.topic rq)) in
          match topic_conditions with
          | [] => filters
          | _ => filters ++ [or_ topic_conditions]
          end
        else filters in
      (* Author filter *)
      let filters :=
        if Py.truthy (Req.author rq)
        then
          let author_conditions :=
            map (fun a => Authors_any_name_like (percent a))
                (parse_comma_separated (Req.author rq)) in
          match author_conditions with
          | [] => filters
          | _ => filters ++ [or_ author_conditions]
          end
        else filters in
      (* Title filter *)
      let filters :=
        if Py.truthy (Req.title rq)
        then
          let title_conditions :=
            map (fun t => Title_like (percent t))
                (parse_comma_separated (Req.title rq)) in
          match title_conditions with
          | [] => filters
          | _ => filters ++ [or_ title_conditions]
          end
        else filters in
      (* Apply all filters *)
      let query :=
        match filters with
        | [] => query
        | _ => Q.filter_ query (and_ filters)
        end in
      (* Remove duplicates (from joins) *)
      inr (Q.distinct query)
  end.

(** [get_books]: the query above, then the count, the sort, the page and
    the response (lines 285-326).  [arrival] is the order in which the store
    produces the rows during this call. *)
Definition get_books (arrival : arrival_order) (db : Store) (rq : Req.t)
  : Exn + BooksListResponse :=
  match compose_query rq with
  | inl e => inl e
  | inr query =>
      (* Get total count *)
      let total_count := Q.count db query in
      if max_bigint <? total_count then inl DBAPIError
      else
      (* Sort by popularity (download_count) *)
      let query := Q.order_by_download_count_desc query in
      (* Apply pagination *)
      let offset := (Req.page rq - 1) * Req.page_size rq in
      if (offset <? 0) || (Req.page_size rq <? 0)
         || (max_bigint <? offset) || (max_bigint <? Req.page_size rq)
      then inl DBAPIError
      else
        let books :=
          Q.all arrival db
                (Q.limit (Q.offset query (Z.to_nat offset)) (Z.to_nat (Req.page_size rq))) in
        (* Format response *)
        let results := map (book_response db) books in
        match Py.floordiv (total_count + Req.page_size rq - 1) (Req.page_size rq) with
        | None => inl ZeroDivisionError
        | Some total_pages =>
            inr {| count := total_count;
                   results := results;
                   page := Req.page rq;
                   total_pages := total_pages |}
        end
  end.

(** What the client receives.  The route declares [page >= 1] and
    [1 <= page_size <= 100]; the framework answers 422 without calling
    [get_books] when a declared constraint fails, and 500 when the function
    raises an exception that is not an [HTTPException] ([get_books] has a
    [finally] clause and no [except] clause). *)
Inductive HttpResponse :=
| Http200 (body : BooksListResponse)
| Http422
| Http500.

Definition books_endpoint (arrival : arrival_order) (db : Store) (rq : Req.t)
  : HttpResponse :=
  if (1 <=? Req.page rq) && (1 <=? Req.page_size rq) && (Req.page_size rq <=? 100)
  then match get_books arrival db rq with
       | inr body => Http200 body
       | inl _ => Http500
       end
  else Http422.

Definition is_client_error (r : HttpResponse) : bool :=
  match r with Http422 => true | _ => false end.

(** ** A small store for examples: the scenario of the specification, with
    one more book that ties with the second on [download_count]. *)

Definition moby_dick : Book.t :=
  {| Book.id := 1; Book.title := Some "Moby Dick"; Book.download_count := 100 |}.
Definition war_and_peace : Book.t :=
  {| Book.id := 2; Book.title := Some "War and Peace"; Book.download_count := 50 |}.
Definition untitled : Book.t :=
  {| Book.id := 3; Book.title := Some ""; Book.download_count := 50 |}.

Definition library : Store :=
  {| books := [moby_dick; war_and_peace; untitled];
     authors := [ {| Author.id := 1; Author.name := "Melville, Herman";
                     Author.birth_year := Some 1819; Author.death_year := Some 1891 |};
                  {| Author.id := 2; Author.name := "Tolstoy, Leo";
                     Author.birth_year := Some 1828; Author.death_year := Some 1910 |} ];
     subjects := [ {| Subject.id := 1; Subject.name := "Whaling -- Fiction" |};
                   {| Subject.id := 2; Subject.name := "Sea stories" |} ];
     bookshelves := [ {| Bookshelf.id := 1; Bookshelf.name := "Best Books Ever Listings" |};
                      {| Bookshelf.id := 2; Bookshelf.name := "Napoleonic" |} ];
     languages := [ {| Language.id := 1; Language.code := "en" |};
                    {| Language.id := 2; Language.code := "fr" |} ];
     formats := [ {| Format.id := 1; Format.mime_type := "text/plain";
                     Format.url := "http://example.org/1.txt"; Format.book_id := 1 |};
                  {| Format.id := 2; Format.mime_type := "text/html";
                     Format.url := "http://example.org/1.html"; Format.book_id := 1 |};
                  {| Format.id := 3; Format.mime_type := "text/plain";
                     Format.url := "http://example.org/2.txt"; Format.book_id := 2 |} ];
     book_authors := [(1, 1); (2, 2)];
     book_subjects := [(1, 1); (1, 2)];
     book_bookshelves := [(1, 1); (2, 2)];
     book_languages := [(1, 1); (2, 2); (3, 1); (3, 2)] |}.

Definition no_filters (page page_size : Z) : Req.t :=
  {| Req.book_id := None; Req.language := None; Req.mime_type := None;
     Req.topic := None; Req.author := None; Req.title := None;
     Req.page := page; Req.page_size := page_size |}.

Definition in_store_order : arrival_order := fun l => l.
Definition in_reverse_order : arrival_order := fun l => rev l.

Definition ids_of (o : Exn + BooksListResponse) : option (Z * list Z * Z) :=
  match o with
  | inr r => Some (count r, map br_id (results r), total_pages r)
  | inl _ => None
  end.

(** ** Substrings and LIKE patterns *)

(** [t] occurs in [s]. *)
Definition contains (s t : string) : Prop :=
  exists pre post, s = (pre ++ t ++ post)%string.

(** [t] occurs in [s] when the case of ASCII letters is ignored. *)
Definition icontains (s t : string) : Prop :=
  contains (Sql.lower s) (Sql.lower t).

Fixpoint starts_with (t s : string) : bool :=
  match t, s with
  | "", _ => true
  | String _ _, "" => false
  | String c t', String d s' => Ascii.eqb c d && starts_with t' s'
  end.

Fixpoint containsb (s t : string) : bool :=
  starts_with t s
  || match s with
     | "" => false
     | String _ s' => containsb s' t
     end.

(** The characters LIKE does not read literally. *)
Definition wildcard (c : ascii) : bool :=
  Ascii.eqb c "%" || Ascii.eqb c "_" || Ascii.eqb c "\".

Fixpoint plain (t : string) : bool :=
  match t with
  | "" => true
  | String c r => negb (wildcard c) && plain r
  end.

(** The patterns the store accepts: no lone backslash at the end. *)
Fixpoint accepted (p : string) : bool :=
  match p with
  | "" => true
  | String "\" "" => false
  | String "\" (String _ p') => accepted p'
  | String _ p' => accepted p'
  end.

(** ** The predicate of each filter category

    What a book has to satisfy for each of the six parameters, stated on the
    tables of the store, and when the source adds the filter to the WHERE
    clause. *)

Section Predicates.

Variable db : Store.
Variable rq : Req.t.
Variable b : Book.t.

Definition book_id_predicate : Prop :=
  exists ids,
    Py.map_raise Py.int (parse_comma_separated (Req.book_id rq)) = Some ids
    /\ In (Book.id b) ids.

Definition language_predicate : Prop :=
  exists l, In l (languages db)
            /\ In (Book.id b, Language.id l) (book_languages db)
            /\ In (Language.code l) (parse_comma_separated (Req.language rq)).

Definition mime_type_predicate : Prop :=
  exists f, In f (formats db)
            /\ Format.book_id f = Book.id b
            /\ In (Format.mime_type f) (parse_comma_separated (Req.mime_type rq)).

(** The topic test for one token, with the comparison [test] between a
    name and the token left open. *)
Definition topic_token (test : string -> string -> Prop) (t : string) : Prop :=
  (exists s, In s (subjects db)
             /\ In (Book.id b, Subject.id s) (book_subjects db)
             /\ test (Subject.name s) t)
  \/ (exists s, In s (bookshelves db)
                /\ In (Book.id b, Bookshelf.id s) (book_bookshelves db)
                /\ test (Bookshelf.name s) t).

Definition like_token (name t : string) : Prop := ilike name (percent t) = true.

Definition topic_predicate : Prop :=
  exists t, In t (parse_comma_separated (Req.topic rq)) /\ topic_token like_token t.

Definition author_predicate : Prop :=
  exists t, In t (parse_comma_separated (Req.author rq))
            /\ exists a, In a (authors db)
                         /\ In (Book.id b, Author.id a) (book_authors db)
                         /\ like_token (Author.name a) t.

Definition title_predicate : Prop :=
  exists t, In t (parse_comma_separated (Req.title rq))
            /\ exists s, Book.title b = Some s /\ like_token s t.

(** A filter is active when the source appends its condition to
    [filters]. *)
Definition book_id_active : Prop := Py.truthy (Req.book_id rq) = true.
Definition language_active : Prop := Py.truthy (Req.language rq) = true.
Definition mime_type_active : Prop := Py.truthy (Req.mime_type rq) = true.
Definition topic_active : Prop := parse_comma_separated (Req.topic rq) <> [].
Definition author_active : Prop := parse_comma_separated (Req.author rq) <> [].
Definition title_active : Prop := parse_comma_separated (Req.title rq) <> [].

Definition satisfies_active_filters : Prop :=
  (book_id_active -> book_id_predicate)
  /\ (language_active -> language_predicate)
  /\ (mime_type_active -> mime_type_predicate)
  /\ (topic_active -> topic_predicate)
  /\ (author_active -> author_predicate)
  /\ (title_active -> title_predicate).

End Predicates.

(** ** The composed query in closed form (used in the proofs) *)

Definition optional_filter (active : bool) (c : Cond) : list Cond :=
  if active then [c] else [].

Definition any_of (cs : list Cond) : list Cond :=
  match cs with
  | [] => []
  | _ => [or_ cs]
  end.

Definition book_id_filter (rq : Req.t) : Exn + list Cond :=
  if Py.truthy (Req.book_id rq)
  then match Py.map_raise Py.int (parse_comma_separated (Req.book_id rq)) with
       | Some book_ids => inr [Book_id_in book_ids]
       | None => inl ValueError
       end
  else inr [].

Definition topic_conditions (rq : Req.t) : list Cond :=
  map (fun t => or_ [Subjects_any_id_in_like (percent t);
                     Bookshelves_any_id_in_like (percent t)])
      (parse_comma_separated (Req.topic rq)).

Definition author_conditions (rq : Req.t) : list Cond :=
  map (fun a => Authors_any_name_like (percent a))
      (parse_comma_separated (Req.author rq)).

Definition title_conditions (rq : Req.t) : list Cond :=
  map (fun t => Title_like (percent t)) (parse_comma_separated (Req.title rq)).

Definition other_filters (rq : Req.t) : list Cond :=
  optional_filter (Py.truthy (Req.language rq))
                  (Language_code_in (parse_comma_separated (Req.language rq)))
  ++ optional_filter (Py.truthy (Req.mime_type rq))
                     (Format_mime_type_in (parse_comma_separated (Req.mime_type rq)))
  ++ any_of (topic_conditions rq)
  ++ any_of (author_conditions rq)
  ++ any_of (title_conditions rq).

Definition query_of (rq : Req.t) (filters : list Cond) : Query :=
  {| q_join_languages := Py.truthy (Req.language rq);
     q_join_formats := Py.truthy (Req.mime_type rq);
     q_where := match filters with [] => None | _ => Some (and_ filters) end;
     q_distinct := true;
     q_order_by_download_count_desc := false;
     q_offset := None;
     q_limit := None |}.

(** The rows the joins attach to a book. *)
Definition joined_languages db q b : list (option Language.t) :=
  if q_join_languages q then map Some (Book_languages_join db b) else [None].

Definition joined_formats db q b : list (option Format.t) :=
  if q_join_formats q then map Some (Book_formats db b) else [None].

(** ** Order, pages and walks over the pages *)

(** [a] may come before [b] in a list sorted by decreasing
    [download_count]. *)
Definition by_downloads_desc (a b : Book.t) : Prop :=
  Book.download_count b <= Book.download_count a.

Definition sorted_desc (l : list Book.t) : Prop :=
  StronglySorted by_downloads_desc l.

(** The same request for another page. *)
Definition with_page (rq : Req.t) (p : Z) : Req.t :=
  {| Req.book_id := Req.book_id rq; Req.language := Req.language rq;
     Req.mime_type := Req.mime_type rq; Req.topic := Req.topic rq;
     Req.author := Req.author rq; Req.title := Req.title rq;
     Req.page := p; Req.page_size := Req.page_size rq |}.

(** The same filters with another window. *)
Definition with_window (rq : Req.t) (p size : Z) : Req.t :=
  {| Req.book_id := Req.book_id rq; Req.language := Req.language rq;
     Req.mime_type := Req.mime_type rq; Req.topic := Req.topic rq;
     Req.author := Req.author rq; Req.title := Req.title rq;
     Req.page := p; Req.page_size := size |}.

Definition without_language (rq : Req.t) : Req.t :=
  {| Req.book_id := Req.book_id rq; Req.language := None;
     Req.mime_type := Req.mime_type rq; Req.topic := Req.topic rq;
     Req.author := Req.author rq; Req.title := Req.title rq;
     Req.page := Req.page rq; Req.page_size := Req.page_size rq |}.

Definition without_topic (rq : Req.t) : Req.t :=
  {| Req.book_id := Req.book_id rq; Req.language := Req.language rq;
     Req.mime_type := Req.mime_type rq; Req.topic := None;
     Req.author := Req.author rq; Req.title := Req.title rq;
     Req.page := Req.page rq; Req.page_size := Req.page_size rq |}.

Definition results_of (o : Exn + BooksListResponse) : list BookResponse :=
  match o with
  | inr r => results r
  | inl _ => []
  end.

Definition total_pages_of (o : Exn + BooksListResponse) : Z :=
  match o with
  | inr r => total_pages r
  | inl _ => 0
  end.

(** A client reads pages 1 to [total_pages], one call of [get_books] per
    page; [arrival p] is the order in which the store produces the rows
    during the call for page [p].  The result is the concatenation of the
    [results] of the pages. *)
Definition walk_pages (arrival : nat -> arrival_order) (db : Store) (rq : Req.t)
  : list BookResponse :=
  flat_map (fun p => results_of (get_books (arrival p) db (with_page rq (Z.of_nat p))))
           (seq 1 (Z.to_nat (total_pages_of
                               (get_books (arrival 1%nat) db (with_page rq 1))))).

(** The store hands over rows of equal key in store order for every page but
    the third, where it hands them over in reverse. *)
Definition flips_at_page_three (p : nat) : arrival_order :=
  if (p =? 3)%nat then in_reverse_order else in_store_order.

(** The books of one page: the window cut from the sorted selection. *)
Definition page_books (arrival : arrival_order) (db : Store) (q : Query)
    (p size : Z) : list Book.t :=
  firstn (Z.to_nat size)
         (skipn (Z.to_nat ((p - 1) * size))
                (Q.sort_desc (arrival (Q.selected db q)))).

Definition count_of (o : Exn + BooksListResponse) : Z :=
  match o with
  | inr r => count r
  | inl _ => 0
  end.

Definition english_moby : Req.t :=
  {| Req.book_id := None; Req.language := Some "en"; Req.mime_type := None;
     Req.topic := None; Req.author := None; Req.title := Some "moby, peace";
     Req.page := 1; Req.page_size := 25 |}.

Definition plain_texts (page page_size : Z) : Req.t :=
  {| Req.book_id := None; Req.language := None;
     Req.mime_type := Some "text/plain, text/html";
     Req.topic := None; Req.author := None; Req.title := None;
     Req.page := page; Req.page_size := page_size |}.

Definition only_language (codes : string) : Req.t :=
  {| Req.book_id := None; Req.language := Some codes; Req.mime_type := None;
     Req.topic := None; Req.author := None; Req.title := None;
     Req.page := 1; Req.page_size := 25 |}.

Definition only_topic (topics : string) : Req.t :=
  {| Req.book_id := None; Req.language := None; Req.mime_type := None;
     Req.topic := Some topics; Req.author := None; Req.title := None;
     Req.page := 1; Req.page_size := 25 |}.

Definition only_book_id (ids : string) : Req.t :=
  {| Req.book_id := Some ids; Req.language := None; Req.mime_type := None;
     Req.topic := None; Req.author := None; Req.title := None;
     Req.page := 1; Req.page_size := 25 |}.

Definition only_mime_type (types : string) : Req.t :=
  {| Req.book_id := None; Req.language := None; Req.mime_type := Some types;
     Req.topic := None; Req.author := None; Req.title := None;
     Req.page := 1; Req.page_size := 25 |}.

Definition selected_of (db : Store) (rq : Req.t) : list Book.t :=
  match compose_query rq with
  | inr q => Q.selected db q
  | inl _ => []
  end.

(** ** Further definitions: tokens, and requests with one parameter changed *)

(** [",".join(tokens)], the way a client writes a list of values. *)
Fixpoint comma_join (tokens : list string) : string :=
  match tokens with
  | [] => ""
  | [t] => t
  | t :: rest => (t ++ "," ++ comma_join rest)%string
  end.

Fixpoint comma_free (s : string) : bool :=
  match s with
  | "" => true
  | String c r => negb (Ascii.eqb c ",") && comma_free r
  end.

(** A token as [parse_comma_separated] returns them: not empty, without
    blanks around it, without a comma. *)
Definition clean_token (t : string) : Prop :=
  t <> "" /\ Py.strip t = t /\ comma_free t = true.

Definition without_book_id (rq : Req.t) : Req.t :=
  {| Req.book_id := None; Req.language := Req.language rq;
     Req.mime_type := Req.mime_type rq; Req.topic := Req.topic rq;
     Req.author := Req.author rq; Req.title := Req.title rq;
     Req.page := Req.page rq; Req.page_size := Req.page_size rq |}.

Definition without_mime_type (rq : Req.t) : Req.t :=
  {| Req.book_id := Req.book_id rq; Req.language := Req.language rq;
     Req.mime_type := None; Req.topic := Req.topic rq;
     Req.author := Req.author rq; Req.title := Req.title rq;
     Req.page := Req.page rq; Req.page_size := Req.page_size rq |}.

Definition without_author (rq : Req.t) : Req.t :=
  {| Req.book_id := Req.book_id rq; Req.language := Req.language rq;
     Req.mime_type := Req.mime_type rq; Req.topic := Req.topic rq;
     Req.author := None; Req.title := Req.title rq;
     Req.page := Req.page rq; Req.page_size := Req.page_size rq |}.

Definition without_title (rq : Req.t) : Req.t :=
  {| Req.book_id := Req.book_id rq; Req.language := Req.language rq;
     Req.mime_type := Req.mime_type rq; Req.topic := Req.topic rq;
     Req.author := Req.author rq; Req.title := None;
     Req.page := Req.page rq; Req.page_size := Req.page_size rq |}.

Definition with_title (rq : Req.t) (v : option string) : Req.t :=
  {| Req.book_id := Req.book_id rq; Req.language := Req.language rq;
     Req.mime_type := Req.mime_type rq; Req.topic := Req.topic rq;
     Req.author := Req.author rq; Req.title := v;
     Req.page := Req.page rq; Req.page_size := Req.page_size rq |}.

Definition with_language (rq : Req.t) (v : option string) : Req.t :=
  {| Req.book_id := Req.book_id rq; Req.language := v;
     Req.mime_type := Req.mime_type rq; Req.topic := Req.topic rq;
     Req.author := Req.author rq; Req.title := Req.title rq;
     Req.page := Req.page rq; Req.page_size := Req.page_size rq |}.

Definition only_author (names : string) : Req.t :=
  {| Req.book_id := None; Req.language := None; Req.mime_type := None;
     Req.topic := None; Req.author := Some names; Req.title := None;
     Req.page := 1; Req.page_size := 25 |}.

Definition only_title (words : string) : Req.t :=
  {| Req.book_id := None; Req.language := None; Req.mime_type := None;
     Req.topic := None; Req.author := None; Req.title := Some words;
     Req.page := 1; Req.page_size := 25 |}.

(** ** The filters as the specification words them

    A filter is active when its parameter has at least one token; topic,
    author and title compare by containment, the case of letters being
    ignored. *)

Section Specified.

Variable db : Store.
Variable rq : Req.t.
Variable b : Book.t.

Definition topic_contains : Prop :=
  exists t, In t (parse_comma_separated (Req.topic rq))
            /\ topic_token db b icontains t.

Definition author_contains : Prop :=
  exists t, In t (parse_comma_separated (Req.author rq))
            /\ exists a, In a (authors db)
                         /\ In (Book.id b, Author.id a) (book_authors db)
                         /\ icontains (Author.name a) t.

Definition title_contains : Prop :=
  exists t, In t (parse_comma_separated (Req.title rq))
            /\ exists s, Book.title b = Some s /\ icontains s t.

Definition meets_every_active_filter : Prop :=
  (parse_comma_separated (Req.book_id rq) <> [] -> book_id_predicate rq b)
  /\ (parse_comma_separated (Req.language rq) <> [] -> language_predicate db rq b)
  /\ (parse_comma_separated (Req.mime_type rq) <> [] -> mime_type_predicate db rq b)
  /\ (parse_comma_separated (Req.topic rq) <> [] -> topic_contains)
  /\ (parse_comma_separated (Req.author rq) <> [] -> author_contains)
  /\ (parse_comma_separated (Req.title rq) <> [] -> title_contains).

(** The test of one topic token: containment for a token without wildcard
    characters, the LIKE pattern otherwise. *)
Definition topic_match (t : string) : Prop :=
  (plain t = true
   /\ ((exists s, In s (subjects db)
                  /\ In (Book.id b, Subject.id s) (book_subjects db)
                  /\ icontains (Subject.name s) t)
       \/ (exists s, In s (bookshelves db)
                     /\ In (Book.id b, Bookshelf.id s) (book_bookshelves db)
                     /\ icontains (Bookshelf.name s) t)))
  \/ (plain t = false /\ topic_token db b like_token t).

End Specified.

Definition no_filter_has_a_token (rq : Req.t) : Prop :=
  parse_comma_separated (Req.book_id rq) = []
  /\ parse_comma_separated (Req.language rq) = []
  /\ parse_comma_separated (Req.mime_type rq) = []
  /\ parse_comma_separated (Req.topic rq) = []
  /\ parse_comma_separated (Req.author rq) = []
  /\ parse_comma_separated (Req.title rq) = [].

(** No token of the three LIKE filters has a wildcard character. *)
Definition wildcard_free (rq : Req.t) : Prop :=
  forall t,
    In t (parse_comma_separated (Req.topic rq))
    \/ In t (parse_comma_separated (Req.author rq))
    \/ In t (parse_comma_separated (Req.title rq)) ->
    plain t = true.

(** A [book_id], [language] or [mime_type] that is given has a token. *)
Definition no_blank_value (rq : Req.t) : Prop :=
  (Py.truthy (Req.book_id rq) = true -> parse_comma_separated (Req.book_id rq) <> [])
  /\ (Py.truthy (Req.language rq) = true
      -> parse_comma_separated (Req.language rq) <> [])
  /\ (Py.truthy (Req.mime_type rq) = true
      -> parse_comma_separated (Req.mime_type rq) <> []).

(** The same window with no filter parameter. *)
Definition clear_filters (rq : Req.t) : Req.t :=
  no_filters (Req.page rq) (Req.page_size rq).

(** The store holds no more books than it can count. *)
Definition countable (db : Store) : Prop :=
  Z.of_nat (List.length (books db)) <= max_bigint.

(** The small store with one more book, whose title is NULL. *)
Definition anonymous : Book.t :=
  {| Book.id := 4; Book.title := None; Book.download_count := 10 |}.

Definition library_with_anonymous : Store :=
  {| books := books library ++ [anonymous];
     authors := authors library;
     subjects := subjects library;
     bookshelves := bookshelves library;
     languages := languages library;
     formats := formats library;
     book_authors := book_authors library;
     book_subjects := book_subjects library;
     book_bookshelves := book_bookshelves library;
     book_languages := book_languages library |}.

(** A page number whose offset does not fit 64 bits. *)
Definition far_page : Z := 9223372036854775809.

(** * Properties *)

Example parse_two : parse_comma_separated (Some " en , fr,,") = ["en"; "fr"].
Proof. reflexivity. Qed.

Example parse_absent_or_empty :
  parse_comma_separated None = [] /\ parse_comma_separated (Some "") = [].
Proof. split; reflexivity. Qed.

Example parse_commas_only : parse_comma_separated (Some " , ") = [].
Proof. reflexivity. Qed.

Example int_examples :
  map Py.int ["12"; "-7"; "+0_1"; "1__0"; "abc"; "1.5"; ""; "_1"; "4_"]
  = [Some 12; Some (-7); Some 1; None; None; None; None; None; None].
Proof. reflexivity. Qed.

Example like_examples :
  map (fun '(p, s) => Sql.like p s)
    [("%dark%", "the dark forest"); ("%dark%", "light"); ("%_%", "x");
     ("%_%", ""); ("%a%b%", "xxaxxbxx"); ("%\%%", "100%"); ("%\%%", "100")]
  = [true; false; true; false; true; true; false].
Proof. reflexivity. Qed.

Lemma starts_with_iff t s :
  starts_with t s = true <-> exists post, s = (t ++ post)%string.
Proof.
  revert s. induction t as [|c t IH]; intros s; simpl.
  - split; [intros _; now exists s | reflexivity].
  - destruct s as [|d s].
    + split; [discriminate | intros [post H]; discriminate H].
    + rewrite andb_true_iff, IH. split.
      * intros [Hc [post ->]]. apply Ascii.eqb_eq in Hc. subst d. now exists post.
      * intros [post H]. injection H as -> ->. split.
        -- apply Ascii.eqb_refl.
        -- now exists post.
Qed.

Lemma containsb_iff s t : containsb s t = true <-> contains s t.
Proof.
  unfold contains. induction s as [|d s IH].
  - simpl. rewrite orb_false_r, starts_with_iff. split.
    + intros [post H]. now exists "", post.
    + intros [pre [post H]]. destruct pre; [now exists post | discriminate H].
  - cbn [containsb]. rewrite orb_true_iff, IH, starts_with_iff. split.
    + intros [[post H] | [pre [post H]]].
      * now exists "", post.
      * exists (String d pre), post. simpl. now rewrite H.
    + intros [pre [post H]]. destruct pre as [|e pre].
      * left. now exists post.
      * right. simpl in H. injection H as _ H. now exists pre, post.
Qed.

Lemma like_percent p s :
  Sql.like (String "%" p) s = true
  <-> exists pre post, s = (pre ++ post)%string /\ Sql.like p post = true.
Proof.
  induction s as [|d s IH].
  - simpl. rewrite orb_false_r. split.
    + intros H. now exists "", "".
    + intros [pre [post [H1 H2]]]. destruct pre; [|discriminate H1].
      simpl in H1. now subst post.
  - change (Sql.like (String "%" p) (String d s))
      with (Sql.like p (String d s) || Sql.like (String "%" p) s).
    rewrite orb_true_iff, IH. split.
    + intros [H | [pre [post [H1 H2]]]].
      * now exists "", (String d s).
      * exists (String d pre), post. simpl. now rewrite H1.
    + intros [pre [post [H1 H2]]]. destruct pre as [|e pre].
      * left. simpl in H1. now rewrite H1.
      * right. simpl in H1. injection H1 as _ H1. now exists pre, post.
Qed.

Lemma like_percent_end s : Sql.like "%" s = true.
Proof. apply like_percent. exists s, "". split; [|reflexivity].
  induction s; simpl; congruence.
Qed.

Lemma like_literal c p s :
  wildcard c = false ->
  Sql.like (String c p) s
  = match s with
    | "" => false
    | String d s' => Ascii.eqb c d && Sql.like p s'
    end.
Proof.
  intros H.
  destruct c as [[] [] [] [] [] [] [] []]; try reflexivity; discriminate H.
Qed.

Lemma like_plain_prefix t p s :
  plain t = true ->
  (Sql.like (t ++ p) s = true
   <-> exists rest, s = (t ++ rest)%string /\ Sql.like p rest = true).
Proof.
  revert s. induction t as [|c t IH]; intros s Ht.
  - simpl. split; [intros H; now exists s | now intros [rest [-> H]]].
  - simpl in Ht. apply andb_true_iff in Ht as [Hc Ht].
    apply negb_true_iff in Hc.
    change (String c t ++ p)%string with (String c (t ++ p)%string).
    rewrite (like_literal _ _ _ Hc). destruct s as [|d s].
    + split; [discriminate | intros [rest [H _]]; discriminate H].
    + rewrite andb_true_iff, (IH _ Ht). split.
      * intros [He [rest [-> H]]]. apply Ascii.eqb_eq in He. subst d.
        now exists rest.
      * intros [rest [H1 H2]]. simpl in H1. injection H1 as -> ->. split.
        -- apply Ascii.eqb_refl.
        -- now exists rest.
Qed.

(** For a token without wildcard characters, the pattern [%token%] matches
    exactly the strings the token occurs in. *)
Lemma like_percent_plain t s :
  plain t = true -> (Sql.like (percent t) s = true <-> contains s t).
Proof.
  intros Ht. unfold percent, contains.
  change ("%" ++ t ++ "%")%string with (String "%" (t ++ "%")%string).
  rewrite like_percent. split.
  - intros [pre [post [-> H]]]. apply (like_plain_prefix _ _ _ Ht) in H.
    destruct H as [rest [-> _]]. now exists pre, rest.
  - intros [pre [post ->]]. exists pre, (t ++ post)%string. split; [reflexivity|].
    apply (like_plain_prefix _ _ _ Ht). exists post. split; [reflexivity|].
    apply like_percent_end.
Qed.

Lemma lower_app a b : Sql.lower (a ++ b) = (Sql.lower a ++ Sql.lower b)%string.
Proof. induction a as [|c a IH]; simpl; [reflexivity | now rewrite IH]. Qed.

Lemma lower_percent t : Sql.lower (percent t) = percent (Sql.lower t).
Proof. unfold percent. now rewrite !lower_app. Qed.

Lemma wildcard_lower_char c : wildcard (Sql.lower_char c) = wildcard c.
Proof. destruct c as [[] [] [] [] [] [] [] []]; reflexivity. Qed.

Lemma plain_lower t : plain (Sql.lower t) = plain t.
Proof.
  induction t as [|c t IH]; simpl; [reflexivity|].
  now rewrite wildcard_lower_char, IH.
Qed.

(** The comparison the source writes, for a token without wildcard
    characters: a case-insensitive substring test. *)
Lemma ilike_percent_plain x t :
  plain t = true -> (ilike x (percent t) = true <-> icontains x t).
Proof.
  intros Ht. unfold ilike, icontains. rewrite lower_percent.
  apply like_percent_plain. now rewrite plain_lower.
Qed.

(** Every pattern [get_books] builds is accepted by the store, whatever the
    token. *)
Lemma accepted_cons c p :
  accepted (String c p)
  = if Ascii.eqb c "\"
    then match p with "" => false | String _ p' => accepted p' end
    else accepted p.
Proof. destruct c as [[] [] [] [] [] [] [] []]; reflexivity. Qed.

Lemma accepted_before_percent t :
  accepted (t ++ "%") = true /\ forall c, accepted (String c t ++ "%") = true.
Proof.
  induction t as [|d t [IH1 IH2]].
  - split; [reflexivity|]. intros c. simpl append. rewrite accepted_cons.
    now destruct (Ascii.eqb c "\").
  - split; [apply IH2|]. intros c.
    change (String c (String d t) ++ "%")%string
      with (String c (String d (t ++ "%")%string)).
    rewrite accepted_cons. destruct (Ascii.eqb c "\"); [exact IH1 | apply IH2].
Qed.

Lemma accepted_percent t : accepted (Sql.lower (percent t)) = true.
Proof.
  rewrite lower_percent. unfold percent.
  change ("%" ++ Sql.lower t ++ "%")%string
    with (String "%" (Sql.lower t ++ "%")%string).
  rewrite accepted_cons. cbn [Ascii.eqb Bool.eqb]. apply accepted_before_percent.
Qed.

(** ** The composed query *)

Lemma parse_falsy v : Py.truthy v = false -> parse_comma_separated v = [].
Proof. intros H. unfold parse_comma_separated. now rewrite H. Qed.

Lemma compose_query_closed_form rq :
  compose_query rq
  = match book_id_filter rq with
    | inl e => inl e
    | inr f0 => inr (query_of rq (f0 ++ other_filters rq))
    end.
Proof.
  unfold compose_query, book_id_filter, other_filters, query_of,
    topic_conditions, author_conditions, title_conditions.
  destruct (Py.truthy (Req.book_id rq));
    [destruct (Py.map_raise Py.int (parse_comma_separated (Req.book_id rq)));
     [|reflexivity]|];
    destruct (Py.truthy (Req.language rq));
    destruct (Py.truthy (Req.mime_type rq));
    (destruct (Py.truthy (Req.topic rq)) eqn:Et;
     [|rewrite (parse_falsy _ Et)]);
    (destruct (Py.truthy (Req.author rq)) eqn:Ea;
     [|rewrite (parse_falsy _ Ea)]);
    (destruct (Py.truthy (Req.title rq)) eqn:Ei;
     [|rewrite (parse_falsy _ Ei)]);
    try destruct (parse_comma_separated (Req.topic rq));
    try destruct (parse_comma_separated (Req.author rq));
    try destruct (parse_comma_separated (Req.title rq));
    reflexivity.
Qed.

(** ** Joins and conditions on rows *)

Lemma in_related {T} (key : T -> Z) table assoc b x :
  In x (related key table assoc b)
  <-> In x table /\ In (Book.id b, key x) assoc.
Proof.
  unfold related. rewrite in_flat_map. split.
  - intros [[i j] [Hl Hx]]. simpl in Hx.
    destruct (i =? Book.id b) eqn:E; [|contradiction].
    apply filter_In in Hx as [Hx Hk].
    apply Z.eqb_eq in E, Hk. subst. now split.
  - intros [Hx Hl]. exists (Book.id b, key x). split; [assumption|].
    simpl. rewrite Z.eqb_refl. apply filter_In. split; [assumption|].
    apply Z.eqb_refl.
Qed.

Lemma in_loaded {T} (key : T -> Z) table assoc b x :
  In x (loaded key table assoc b)
  <-> In x table /\ In (Book.id b, key x) assoc.
Proof.
  unfold loaded. rewrite filter_In, existsb_exists. split.
  - intros [Hx [[i j] [Hl E]]]. simpl in E.
    apply andb_true_iff in E as [E1 E2]. apply Z.eqb_eq in E1, E2. subst.
    now split.
  - intros [Hx Hl]. split; [assumption|]. exists (Book.id b, key x).
    split; [assumption|]. simpl. now rewrite !Z.eqb_refl.
Qed.

Lemma in_Book_formats db b f :
  In f (Book_formats db b) <-> In f (formats db) /\ Format.book_id f = Book.id b.
Proof. unfold Book_formats. now rewrite filter_In, Z.eqb_eq. Qed.

Lemma in_from_rows db q r :
  In r (Q.from_rows db q)
  <-> In (row_book r) (books db)
      /\ In (row_language r) (joined_languages db q (row_book r))
      /\ In (row_format r) (joined_formats db q (row_book r)).
Proof.
  unfold Q.from_rows. rewrite in_flat_map. split.
  - intros [b [Hb H]]. apply in_flat_map in H as [l [Hl H]].
    apply in_map_iff in H as [f [<- Hf]]. simpl. now repeat split.
  - intros [Hb [Hl Hf]]. exists (row_book r). split; [assumption|].
    apply in_flat_map. exists (row_language r). split; [exact Hl|].
    apply in_map_iff. exists (row_format r). split; [|exact Hf].
    now destruct r.
Qed.

Lemma in_selected db q b :
  In b (Q.selected db q)
  <-> exists r, In r (Q.from_rows db q) /\ row_book r = b
                /\ match q_where q with
                   | Some c => holds db r c = true
                   | None => True
                   end.
Proof.
  unfold Q.selected.
  assert (E : forall l, In b (if q_distinct q then nodup Book.eq_dec l else l)
                        <-> In b l).
  { intros l. destruct (q_distinct q); [apply nodup_In | reflexivity]. }
  rewrite E, in_map_iff. destruct (q_where q) as [c|].
  - split.
    + intros [r [Hr H]]. apply filter_In in H as [H1 H2]. now exists r.
    + intros [r [H1 [H2 H3]]]. exists r. split; [assumption|].
      apply filter_In. now split.
  - split.
    + intros [r [Hr H]]. now exists r.
    + intros [r [H1 [H2 _]]]. now exists r.
Qed.

Lemma in_selected_query_of db rq fs b :
  In b (Q.selected db (query_of rq fs))
  <-> exists r, In r (Q.from_rows db (query_of rq fs)) /\ row_book r = b
                /\ forallb (holds db r) fs = true.
Proof.
  rewrite in_selected. unfold query_of at 2. cbn [q_where].
  destruct fs as [|c fs]; [|reflexivity].
  simpl. split; intros [r [H1 [H2 _]]]; now exists r.
Qed.

(** *** Each filter, read on a row *)

Lemma existsb_In_Z x l : existsb (Z.eqb x) l = true <-> In x l.
Proof.
  rewrite existsb_exists. split.
  - intros [y [Hy E]]. apply Z.eqb_eq in E. now subst.
  - intros H. exists x. split; [assumption | apply Z.eqb_refl].
Qed.

Lemma existsb_In_string x l : existsb (String.eqb x) l = true <-> In x l.
Proof.
  rewrite existsb_exists. split.
  - intros [y [Hy E]]. apply String.eqb_eq in E. now subst.
  - intros H. exists x. split; [assumption | apply String.eqb_refl].
Qed.

Lemma holds_any_of db r cs :
  forallb (holds db r) (any_of cs) = true
  <-> (cs <> [] -> existsb (holds db r) cs = true).
Proof.
  destruct cs as [|c cs].
  - simpl. split; [intros _ H; now elim H | reflexivity].
  - cbn [any_of forallb]. rewrite andb_true_r.
    change (holds db r (or_ (c :: cs))) with (existsb (holds db r) (c :: cs)).
    split; [intros H _; exact H | intros H; apply H; discriminate].
Qed.

Lemma holds_subjects db r pattern :
  holds db r (Subjects_any_id_in_like pattern) = true
  <-> exists s, In s (subjects db)
                /\ In (Book.id (row_book r), Subject.id s) (book_subjects db)
                /\ ilike (Subject.name s) pattern = true.
Proof.
  cbn [holds]. rewrite existsb_exists. split.
  - intros [s [Hs H]]. apply existsb_In_Z in H. apply in_map_iff in H.
    destruct H as [s' [Hid H]]. apply filter_In in H as [H1 H2].
    apply in_loaded in Hs as [_ Hs]. exists s'. rewrite Hid. now repeat split.
  - intros [s [H1 [H2 H3]]]. exists s. split.
    + apply in_loaded. now split.
    + apply existsb_In_Z. apply in_map_iff. exists s. split; [reflexivity|].
      apply filter_In. now split.
Qed.

Lemma holds_bookshelves db r pattern :
  holds db r (Bookshelves_any_id_in_like pattern) = true
  <-> exists s, In s (bookshelves db)
                /\ In (Book.id (row_book r), Bookshelf.id s) (book_bookshelves db)
                /\ ilike (Bookshelf.name s) pattern = true.
Proof.
  cbn [holds]. rewrite existsb_exists. split.
  - intros [s [Hs H]]. apply existsb_In_Z in H. apply in_map_iff in H.
    destruct H as [s' [Hid H]]. apply filter_In in H as [H1 H2].
    apply in_loaded in Hs as [_ Hs]. exists s'. rewrite Hid. now repeat split.
  - intros [s [H1 [H2 H3]]]. exists s. split.
    + apply in_loaded. now split.
    + apply existsb_In_Z. apply in_map_iff. exists s. split; [reflexivity|].
      apply filter_In. now split.
Qed.

Lemma holds_topic db rq r :
  existsb (holds db r) (topic_conditions rq) = true
  <-> topic_predicate db rq (row_book r).
Proof.
  unfold topic_conditions, topic_predicate, topic_token, like_token.
  rewrite existsb_exists. split.
  - intros [c [Hc H]]. apply in_map_iff in Hc as [t [<- Ht]].
    exists t. split; [assumption|].
    cbn [holds existsb] in H. rewrite orb_false_r in H.
    apply orb_true_iff in H as [H | H].
    + left. now apply holds_subjects.
    + right. now apply holds_bookshelves.
  - intros [t [Ht H]].
    exists (or_ [Subjects_any_id_in_like (percent t);
                 Bookshelves_any_id_in_like (percent t)]).
    split; [apply in_map_iff; now exists t|].
    change (existsb (holds db r) [Subjects_any_id_in_like (percent t);
                                  Bookshelves_any_id_in_like (percent t)] = true).
    cbn [existsb]. rewrite orb_false_r. apply orb_true_iff.
    destruct H as [H | H].
    + left. now apply holds_subjects.
    + right. now apply holds_bookshelves.
Qed.

Lemma holds_author db rq r :
  existsb (holds db r) (author_conditions rq) = true
  <-> author_predicate db rq (row_book r).
Proof.
  unfold author_conditions, author_predicate, like_token.
  rewrite existsb_exists. split.
  - intros [c [Hc H]]. apply in_map_iff in Hc as [t [<- Ht]].
    exists t. split; [assumption|].
    cbn [holds] in H. apply existsb_exists in H as [a [Ha H]].
    apply in_loaded in Ha as [Ha1 Ha2]. now exists a.
  - intros [t [Ht [a [H1 [H2 H3]]]]].
    exists (Authors_any_name_like (percent t)).
    split; [apply in_map_iff; now exists t|].
    cbn [holds]. apply existsb_exists. exists a. split; [|assumption].
    apply in_loaded. now split.
Qed.

Lemma holds_title db rq r :
  existsb (holds db r) (title_conditions rq) = true
  <-> title_predicate rq (row_book r).
Proof.
  unfold title_conditions, title_predicate, like_token.
  rewrite existsb_exists. split.
  - intros [c [Hc H]]. apply in_map_iff in Hc as [t [<- Ht]].
    exists t. split; [assumption|].
    cbn [holds] in H. destruct (Book.title (row_book r)) as [s|]; [|discriminate].
    now exists s.
  - intros [t [Ht [s [H1 H2]]]].
    exists (Title_like (percent t)).
    split; [apply in_map_iff; now exists t|].
    cbn [holds]. now rewrite H1.
Qed.

Lemma map_eq_nil_iff {A B} (f : A -> B) l : map f l <> [] <-> l <> [].
Proof. destruct l; simpl; split; intros H; congruence. Qed.

Lemma language_piece_sound db rq fs r :
  In (row_language r) (joined_languages db (query_of rq fs) (row_book r)) ->
  forallb (holds db r)
          (optional_filter (Py.truthy (Req.language rq))
             (Language_code_in (parse_comma_separated (Req.language rq)))) = true ->
  language_active rq -> language_predicate db rq (row_book r).
Proof.
  unfold joined_languages, language_active, language_predicate, query_of.
  cbn [q_join_languages]. intros Hin Hf Ha. rewrite Ha in Hin, Hf.
  cbn [optional_filter forallb holds] in Hf. rewrite andb_true_r in Hf.
  apply in_map_iff in Hin as [l [E Hl]]. rewrite <- E in Hf.
  apply existsb_In_string in Hf. apply in_related in Hl as [H1 H2].
  now exists l.
Qed.

Lemma language_piece_complete db rq fs b :
  (language_active rq -> language_predicate db rq b) ->
  exists lo, In lo (joined_languages db (query_of rq fs) b)
             /\ forall r, row_language r = lo ->
                  forallb (holds db r)
                    (optional_filter (Py.truthy (Req.language rq))
                       (Language_code_in (parse_comma_separated (Req.language rq))))
                  = true.
Proof.
  unfold joined_languages, language_active, language_predicate, query_of.
  cbn [q_join_languages]. intros H.
  destruct (Py.truthy (Req.language rq)).
  - destruct (H eq_refl) as [l [H1 [H2 H3]]]. exists (Some l). split.
    + apply in_map. apply in_related. now split.
    + intros r E. cbn [optional_filter forallb holds]. rewrite E, andb_true_r.
      now apply existsb_In_string.
  - exists None. split; [now left | reflexivity].
Qed.

Lemma mime_type_piece_sound db rq fs r :
  In (row_format r) (joined_formats db (query_of rq fs) (row_book r)) ->
  forallb (holds db r)
          (optional_filter (Py.truthy (Req.mime_type rq))
             (Format_mime_type_in (parse_comma_separated (Req.mime_type rq)))) = true ->
  mime_type_active rq -> mime_type_predicate db rq (row_book r).
Proof.
  unfold joined_formats, mime_type_active, mime_type_predicate, query_of.
  cbn [q_join_formats]. intros Hin Hf Ha. rewrite Ha in Hin, Hf.
  cbn [optional_filter forallb holds] in Hf. rewrite andb_true_r in Hf.
  apply in_map_iff in Hin as [f [E Hl]]. rewrite <- E in Hf.
  apply existsb_In_string in Hf. apply in_Book_formats in Hl as [H1 H2].
  now exists f.
Qed.

Lemma mime_type_piece_complete db rq fs b :
  (mime_type_active rq -> mime_type_predicate db rq b) ->
  exists fo, In fo (joined_formats db (query_of rq fs) b)
             /\ forall r, row_format r = fo ->
                  forallb (holds db r)
                    (optional_filter (Py.truthy (Req.mime_type rq))
                       (Format_mime_type_in (parse_comma_separated (Req.mime_type rq))))
                  = true.
Proof.
  unfold joined_formats, mime_type_active, mime_type_predicate, query_of.
  cbn [q_join_formats]. intros H.
  destruct (Py.truthy (Req.mime_type rq)).
  - destruct (H eq_refl) as [f [H1 [H2 H3]]]. exists (Some f). split.
    + apply in_map. apply in_Book_formats. now split.
    + intros r E. cbn [optional_filter forallb holds]. rewrite E, andb_true_r.
      now apply existsb_In_string.
  - exists None. split; [now left | reflexivity].
Qed.

Lemma book_id_piece db rq f0 r :
  book_id_filter rq = inr f0 ->
  (forallb (holds db r) f0 = true
   <-> (book_id_active rq -> book_id_predicate rq (row_book r))).
Proof.
  unfold book_id_filter, book_id_active, book_id_predicate.
  destruct (Py.truthy (Req.book_id rq)).
  - destruct (Py.map_raise Py.int (parse_comma_separated (Req.book_id rq)))
      as [ids|]; [|discriminate].
    intros E. injection E as <-. cbn [forallb holds]. rewrite andb_true_r.
    rewrite existsb_In_Z. split.
    + intros H _. now exists ids.
    + intros H. destruct (H eq_refl) as [ids' [E H']]. now injection E as ->.
  - intros E. injection E as <-. simpl. split; [discriminate | reflexivity].
Qed.

Lemma other_filters_pieces db rq r :
  forallb (holds db r) (other_filters rq) = true
  <-> forallb (holds db r)
        (optional_filter (Py.truthy (Req.language rq))
           (Language_code_in (parse_comma_separated (Req.language rq)))) = true
      /\ forallb (holds db r)
           (optional_filter (Py.truthy (Req.mime_type rq))
              (Format_mime_type_in (parse_comma_separated (Req.mime_type rq)))) = true
      /\ (topic_active rq -> topic_predicate db rq (row_book r))
      /\ (author_active rq -> author_predicate db rq (row_book r))
      /\ (title_active rq -> title_predicate rq (row_book r)).
Proof.
  unfold other_filters, topic_active, author_active, title_active.
  rewrite !forallb_app, !andb_true_iff, !holds_any_of.
  rewrite holds_topic, holds_author, holds_title.
  unfold topic_conditions, author_conditions, title_conditions.
  rewrite !map_eq_nil_iff. reflexivity.
Qed.

(** The distinct books the composed query selects are the books of the
    store that satisfy the predicate of every active filter. *)
Lemma selected_iff db rq q b :
  compose_query rq = inr q ->
  (In b (Q.selected db q)
   <-> In b (books db) /\ satisfies_active_filters db rq b).
Proof.
  rewrite compose_query_closed_form.
  destruct (book_id_filter rq) as [e|f0] eqn:E0; [discriminate|].
  intros E. injection E as <-.
  rewrite in_selected_query_of. unfold satisfies_active_filters. split.
  - intros [r [Hr [<- Hf]]]. apply in_from_rows in Hr as [Hb [Hl Hm]].
    rewrite forallb_app, andb_true_iff in Hf. destruct Hf as [H0 H1].
    pose proof (proj1 (book_id_piece db rq f0 r E0) H0) as H0'.
    apply other_filters_pieces in H1 as [H1 [H2 [H3 [H4 H5]]]].
    split; [assumption|]. split; [exact H0'|].
    split; [exact (language_piece_sound db rq _ r Hl H1)|].
    split; [exact (mime_type_piece_sound db rq _ r Hm H2)|].
    now repeat split.
  - intros [Hb [H0 [H1 [H2 [H3 [H4 H5]]]]]].
    destruct (language_piece_complete db rq (f0 ++ other_filters rq) b H1)
      as [lo [Hlo Hl]].
    destruct (mime_type_piece_complete db rq (f0 ++ other_filters rq) b H2)
      as [fo [Hfo Hm]].
    exists {| row_book := b; row_language := lo; row_format := fo |}.
    split; [|split; [reflexivity|]].
    + apply in_from_rows. now repeat split.
    + rewrite forallb_app, andb_true_iff. split.
      * exact (proj2 (book_id_piece db rq f0
                 {| row_book := b; row_language := lo; row_format := fo |} E0) H0).
      * apply other_filters_pieces.
        split; [now apply Hl|]. split; [now apply Hm|]. now repeat split.
Qed.

(** ** Sorting by decreasing download count *)

Lemma insert_desc_perm b l : Permutation (b :: l) (Q.insert_desc b l).
Proof.
  induction l as [|x l IH]; simpl; [reflexivity|].
  destruct (Book.download_count x <=? Book.download_count b); [reflexivity|].
  rewrite perm_swap. now apply perm_skip.
Qed.

Lemma sort_desc_perm l : Permutation l (Q.sort_desc l).
Proof.
  induction l as [|b l IH]; simpl; [reflexivity|].
  rewrite <- insert_desc_perm. now apply perm_skip.
Qed.

Lemma insert_desc_sorted b l : sorted_desc l -> sorted_desc (Q.insert_desc b l).
Proof.
  unfold sorted_desc. induction 1 as [|x l Hl IH Hx]; simpl.
  - constructor; constructor.
  - destruct (Book.download_count x <=? Book.download_count b) eqn:E.
    + apply Z.leb_le in E. constructor; [now constructor|].
      constructor; [exact E|].
      apply Forall_forall. intros y Hy.
      rewrite Forall_forall in Hx. specialize (Hx y Hy).
      unfold by_downloads_desc in *. lia.
    + apply Z.leb_gt in E. constructor; [exact IH|].
      apply Forall_forall. intros y Hy.
      apply (Permutation_in _ (Permutation_sym (insert_desc_perm b l))) in Hy.
      destruct Hy as [<- | Hy].
      * unfold by_downloads_desc. lia.
      * rewrite Forall_forall in Hx. now apply Hx.
Qed.

Lemma sort_desc_sorted l : sorted_desc (Q.sort_desc l).
Proof.
  induction l as [|b l IH]; simpl; [constructor|]. now apply insert_desc_sorted.
Qed.

(** A list that is already in order is left as it arrives: every
    arrangement of the selection that is sorted on the key is the result of
    some execution. *)
Lemma sort_desc_of_sorted l : sorted_desc l -> Q.sort_desc l = l.
Proof.
  unfold sorted_desc. induction 1 as [|a l Hl IH Ha]; [reflexivity|].
  simpl. rewrite IH. destruct l as [|x r]; [reflexivity|]. simpl.
  inversion Ha as [|? ? Hx _]; subst. unfold by_downloads_desc in Hx.
  apply Z.leb_le in Hx. now rewrite Hx.
Qed.

Lemma any_sorted_order_is_possible l out :
  Permutation l out -> sorted_desc out ->
  exists arrived, Permutation l arrived /\ Q.sort_desc arrived = out.
Proof.
  intros Hp Hs. exists out. split; [exact Hp|]. now apply sort_desc_of_sorted.
Qed.

Lemma firstn_In {A} n (l : list A) x : In x (firstn n l) -> In x l.
Proof.
  revert l. induction n as [|n IH]; intros l; [contradiction|].
  destruct l as [|y l]; [contradiction|]. simpl.
  intros [H | H]; [now left | right; now apply IH].
Qed.

Lemma skipn_In {A} n (l : list A) x : In x (skipn n l) -> In x l.
Proof.
  revert l. induction n as [|n IH]; intros l; [trivial|].
  destruct l as [|y l]; [contradiction|]. simpl.
  intros H. right. now apply IH.
Qed.

Lemma sorted_desc_skipn n l : sorted_desc l -> sorted_desc (skipn n l).
Proof.
  unfold sorted_desc. revert l. induction n as [|n IH]; intros l H; [exact H|].
  destruct l as [|x l]; [constructor|]. simpl. apply IH. now inversion H.
Qed.

Lemma sorted_desc_firstn n l : sorted_desc l -> sorted_desc (firstn n l).
Proof.
  unfold sorted_desc. revert l. induction n as [|n IH]; intros l H; [constructor|].
  destruct l as [|x l]; [constructor|]. simpl. inversion H as [|? ? Hl Hx]; subst.
  constructor; [now apply IH|].
  apply Forall_forall. intros y Hy. rewrite Forall_forall in Hx.
  apply Hx. now apply (firstn_In n l).
Qed.

Lemma NoDup_map_inj {A B} (f : A -> B) l x y :
  NoDup (map f l) -> In x l -> In y l -> f x = f y -> x = y.
Proof.
  induction l as [|a l IH]; simpl; [contradiction|].
  intros H Hx Hy E. inversion H as [|? ? Hn Hd]; subst.
  destruct Hx as [-> | Hx], Hy as [-> | Hy]; auto.
  - elim Hn. rewrite E. now apply in_map.
  - elim Hn. rewrite <- E. now apply in_map.
Qed.

Lemma NoDup_map_incl {A B} (f : A -> B) l big :
  NoDup (map f big) -> NoDup l -> incl l big -> NoDup (map f l).
Proof.
  intros Hbig. induction l as [|a l IH]; simpl; intros Hl Hi; [constructor|].
  inversion Hl as [|? ? Hn Hd]; subst. constructor.
  - intros Hin. apply in_map_iff in Hin as [y [E Hy]].
    assert (y = a).
    { apply (NoDup_map_inj f big); auto.
      - apply Hi. now right.
      - apply Hi. now left. }
    subst y. contradiction.
  - apply IH; [assumption|]. intros z Hz. apply Hi. now right.
Qed.

(** With pairwise different keys there is only one way to sort. *)
Lemma sorted_desc_unique l l' :
  NoDup (map Book.download_count l) ->
  Permutation l l' -> sorted_desc l -> sorted_desc l' -> l = l'.
Proof.
  unfold sorted_desc. revert l'. induction l as [|a l IH]; intros l' Hk Hp Hs Hs'.
  - apply Permutation_nil in Hp. now subst.
  - destruct l' as [|a' l'].
    + apply Permutation_sym, Permutation_nil in Hp. discriminate.
    + inversion Hs as [|? ? Hl Ha]; subst. inversion Hs' as [|? ? Hl' Ha']; subst.
      rewrite Forall_forall in Ha, Ha'.
      assert (Hin' : In a' (a :: l)).
      { apply (Permutation_in _ (Permutation_sym Hp)). now left. }
      assert (Hin : In a (a' :: l')).
      { apply (Permutation_in _ Hp). now left. }
      assert (E : a = a').
      { apply (NoDup_map_inj Book.download_count (a :: l)); auto; [now left|].
        apply Z.le_antisymm.
        - destruct Hin as [-> | Hin]; [lia|]. apply (Ha' _ Hin).
        - destruct Hin' as [-> | Hin']; [lia|]. apply (Ha _ Hin'). }
      subst a'. f_equal. apply IH; auto.
      * simpl in Hk. now inversion Hk.
      * now apply Permutation_cons_inv in Hp.
Qed.

(** ** Pages *)

Lemma firstn_plus {A} a b (l : list A) :
  firstn (a + b) l = firstn a l ++ firstn b (skipn a l).
Proof.
  revert l. induction a as [|a IH]; intros l; [reflexivity|].
  destruct l as [|x l]; simpl.
  - now rewrite firstn_nil.
  - now rewrite IH.
Qed.

Lemma pages_concat {A} (n k : nat) (l : list A) :
  flat_map (fun p => firstn n (skipn ((p - 1) * n) l)) (seq 1 k)
  = firstn (k * n) l.
Proof.
  induction k as [|k IH]; [reflexivity|].
  rewrite seq_S, flat_map_app, IH. simpl.
  rewrite app_nil_r, Nat.sub_0_r.
  rewrite (Nat.add_comm n (k * n)). symmetry. apply firstn_plus.
Qed.

(** ** What a successful call returns *)

Lemma get_books_inr arrival db rq resp :
  get_books arrival db rq = inr resp ->
  exists q,
    compose_query rq = inr q
    /\ 1 <= Req.page_size rq
    /\ 0 <= (Req.page rq - 1) * Req.page_size rq
    /\ count resp = Z.of_nat (List.length (Q.selected db q))
    /\ results resp
       = map (book_response db)
             (page_books arrival db q (Req.page rq) (Req.page_size rq))
    /\ page resp = Req.page rq
    /\ total_pages resp
       = (count resp + Req.page_size rq - 1) / Req.page_size rq.
Proof.
  unfold get_books. destruct (compose_query rq) as [e|q]; [discriminate|].
  destruct (max_bigint <? Q.count db q) eqn:Ec; [discriminate|].
  destruct ((Req.page rq - 1) * Req.page_size rq <? 0) eqn:Eo; [discriminate|].
  destruct (Req.page_size rq <? 0) eqn:Es; [discriminate|].
  destruct (max_bigint <? (Req.page rq - 1) * Req.page_size rq); [discriminate|].
  destruct (max_bigint <? Req.page_size rq); [discriminate|].
  cbn [orb]. unfold Py.floordiv.
  destruct (Req.page_size rq =? 0) eqn:Ez; [discriminate|].
  intros E. injection E as <-. exists q.
  apply Z.ltb_ge in Eo, Es. apply Z.eqb_neq in Ez.
  repeat split; try reflexivity; lia.
Qed.

(** A successful call stayed within the 64-bit range of the store. *)
Lemma get_books_inr_bounds arrival db rq resp :
  get_books arrival db rq = inr resp ->
  count resp <= max_bigint
  /\ (Req.page rq - 1) * Req.page_size rq <= max_bigint
  /\ Req.page_size rq <= max_bigint.
Proof.
  unfold get_books. destruct (compose_query rq) as [e|q]; [discriminate|].
  destruct (max_bigint <? Q.count db q) eqn:Ec; [discriminate|].
  destruct ((Req.page rq - 1) * Req.page_size rq <? 0); [discriminate|].
  destruct (Req.page_size rq <? 0); [discriminate|].
  destruct (max_bigint <? (Req.page rq - 1) * Req.page_size rq) eqn:Eo;
    [discriminate|].
  destruct (max_bigint <? Req.page_size rq) eqn:Es; [discriminate|].
  cbn [orb]. unfold Py.floordiv.
  destruct (Req.page_size rq =? 0); [discriminate|].
  intros E. injection E as <-. cbn [count].
  apply Z.ltb_ge in Ec, Eo, Es. repeat split; assumption.
Qed.

Lemma get_books_returns arrival db rq q :
  compose_query rq = inr q ->
  1 <= Req.page rq -> 1 <= Req.page_size rq ->
  Z.of_nat (List.length (Q.selected db q)) <= max_bigint ->
  (Req.page rq - 1) * Req.page_size rq <= max_bigint ->
  Req.page_size rq <= max_bigint ->
  get_books arrival db rq
  = inr {| count := Z.of_nat (List.length (Q.selected db q));
           results := map (book_response db)
                          (page_books arrival db q (Req.page rq) (Req.page_size rq));
           page := Req.page rq;
           total_pages := (Z.of_nat (List.length (Q.selected db q))
                           + Req.page_size rq - 1) / Req.page_size rq |}.
Proof.
  intros Hq Hp Hs Bc Bo Bs. unfold get_books. rewrite Hq.
  assert (Ec : (max_bigint <? Q.count db q) = false)
    by (apply Z.ltb_ge; unfold Q.count; lia).
  assert (Eo : ((Req.page rq - 1) * Req.page_size rq <? 0) = false)
    by (apply Z.ltb_ge; nia).
  assert (Es : (Req.page_size rq <? 0) = false) by (apply Z.ltb_ge; lia).
  assert (Fo : (max_bigint <? (Req.page rq - 1) * Req.page_size rq) = false)
    by (apply Z.ltb_ge; lia).
  assert (Fs : (max_bigint <? Req.page_size rq) = false) by (apply Z.ltb_ge; lia).
  assert (Ez : (Req.page_size rq =? 0) = false) by (apply Z.eqb_neq; lia).
  rewrite Ec, Eo, Es, Fo, Fs. cbn [orb]. unfold Py.floordiv. rewrite Ez.
  reflexivity.
Qed.

(** An OFFSET beyond the 64-bit range makes the store raise. *)
Lemma get_books_offset_out_of_range arrival db rq q :
  compose_query rq = inr q ->
  Z.of_nat (List.length (Q.selected db q)) <= max_bigint ->
  max_bigint < (Req.page rq - 1) * Req.page_size rq ->
  get_books arrival db rq = inl DBAPIError.
Proof.
  intros Hq Bc Ho. unfold get_books. rewrite Hq.
  assert (Ec : (max_bigint <? Q.count db q) = false)
    by (apply Z.ltb_ge; unfold Q.count; lia).
  assert (Fo : (max_bigint <? (Req.page rq - 1) * Req.page_size rq) = true)
    by (apply Z.ltb_lt; lia).
  rewrite Ec, Fo. now rewrite !orb_true_r, ?orb_true_l.
Qed.


Lemma compose_query_with_page rq p :
  compose_query (with_page rq p) = compose_query rq.
Proof. reflexivity. Qed.

Lemma page_books_incl arrival db q p size :
  lossless arrival ->
  incl (page_books arrival db q p size) (Q.selected db q).
Proof.
  intros Ha b Hb. unfold page_books in Hb.
  apply firstn_In, skipn_In in Hb.
  apply (Permutation_in _ (Permutation_sym (sort_desc_perm _))) in Hb.
  now apply (Permutation_in _ (Permutation_sym (Ha _))) in Hb.
Qed.

Lemma page_books_sorted arrival db q p size :
  sorted_desc (page_books arrival db q p size).
Proof. apply sorted_desc_firstn, sorted_desc_skipn, sort_desc_sorted. Qed.

Lemma selected_composed_NoDup db rq q :
  compose_query rq = inr q -> NoDup (Q.selected db q).
Proof.
  rewrite compose_query_closed_form.
  destruct (book_id_filter rq) as [e|f0]; [discriminate|].
  intros E. injection E as <-. unfold Q.selected. cbn [q_distinct query_of].
  apply NoDup_nodup.
Qed.

Lemma selected_incl_books db q : incl (Q.selected db q) (books db).
Proof.
  intros b Hb. apply in_selected in Hb as [r [Hr [<- _]]].
  now apply in_from_rows in Hr.
Qed.

Lemma selected_ids_NoDup db rq q :
  primary_key db -> compose_query rq = inr q ->
  NoDup (map Book.id (Q.selected db q)).
Proof.
  intros Hk Hq. apply (NoDup_map_incl Book.id _ (books db) Hk).
  - now apply (selected_composed_NoDup db rq).
  - apply selected_incl_books.
Qed.

Lemma NoDup_firstn {A} n (l : list A) : NoDup l -> NoDup (firstn n l).
Proof.
  revert l. induction n as [|n IH]; intros l H; [constructor|].
  destruct l as [|x l]; [constructor|]. simpl. inversion H; subst.
  constructor; [|now apply IH].
  intros Hin. now apply firstn_In in Hin.
Qed.

Lemma NoDup_skipn {A} n (l : list A) : NoDup l -> NoDup (skipn n l).
Proof.
  revert l. induction n as [|n IH]; intros l H; [exact H|].
  destruct l as [|x l]; [constructor|]. simpl. inversion H; subst. now apply IH.
Qed.

Lemma sorted_selection_ids_NoDup arrival db rq q :
  lossless arrival -> primary_key db -> compose_query rq = inr q ->
  NoDup (map Book.id (Q.sort_desc (arrival (Q.selected db q)))).
Proof.
  intros Ha Hk Hq.
  apply (Permutation_NoDup (l := map Book.id (Q.selected db q))).
  - apply Permutation_map.
    apply (Permutation_trans (Ha _)). apply sort_desc_perm.
  - now apply (selected_ids_NoDup db rq).
Qed.

Lemma page_books_ids_NoDup arrival db rq q p size :
  lossless arrival -> primary_key db -> compose_query rq = inr q ->
  NoDup (map Book.id (page_books arrival db q p size)).
Proof.
  intros Ha Hk Hq. unfold page_books.
  rewrite <- firstn_map, <- skipn_map.
  apply NoDup_firstn, NoDup_skipn.
  now apply (sorted_selection_ids_NoDup arrival db rq).
Qed.

Lemma response_ids db l : map br_id (map (book_response db) l) = map Book.id l.
Proof. rewrite map_map. reflexivity. Qed.

(** ** Examples on the small store *)

Lemma lossless_in_store_order : lossless in_store_order.
Proof. intros l. apply Permutation_refl. Qed.

Lemma lossless_in_reverse_order : lossless in_reverse_order.
Proof. intros l. apply Permutation_rev. Qed.

Lemma lossless_flips_at_page_three p : lossless (flips_at_page_three p).
Proof.
  unfold flips_at_page_three. destruct (p =? 3)%nat.
  - apply lossless_in_reverse_order.
  - apply lossless_in_store_order.
Qed.

Lemma primary_key_library : primary_key library.
Proof.
  unfold primary_key. simpl.
  repeat (apply NoDup_cons; [simpl; intuition discriminate|]). apply NoDup_nil.
Qed.

(** The scenario of the specification. *)
Example scenario_language_en :
  ids_of (get_books in_store_order library
            english_moby)
  = Some (1, [1], 1).
Proof. reflexivity. Qed.

(** Moby Dick has two formats that pass the mime-type filter: the join has
    three rows for two books, and [count] is 2. *)
Example joined_rows_are_counted_once :
  match compose_query (plain_texts 1 25) with
  | inr q =>
      (List.length
         (filter (fun r => match q_where q with
                           | Some c => holds library r c
                           | None => true
                           end)
                 (Q.from_rows library q)),
       Q.count library q)
  | inl _ => (0%nat, 0)
  end = (3%nat, 2).
Proof. reflexivity. Qed.

Example scenario_no_filters :
  ids_of (get_books in_store_order library (no_filters 1 1)) = Some (3, [1], 3).
Proof. reflexivity. Qed.

Example untitled_is_Unknown :
  map br_title (results_of (get_books in_store_order library (no_filters 3 1)))
  = ["Unknown"].
Proof. reflexivity. Qed.

Lemma NoDup_map_inj_on {A B} (f : A -> B) l :
  NoDup l ->
  (forall x y, In x l -> In y l -> f x = f y -> x = y) ->
  NoDup (map f l).
Proof.
  induction l as [|a l IH]; simpl; intros Hl Hinj; [constructor|].
  inversion Hl as [|? ? Hn Hd]; subst. constructor.
  - intros Hin. apply in_map_iff in Hin as [y [E Hy]].
    assert (y = a) by (apply Hinj; auto). subst y. contradiction.
  - apply IH; [assumption|]. intros x y Hx Hy. apply Hinj; now right.
Qed.

(** Two executions of the store sort a selection without ties the same
    way. *)
Lemma sort_desc_arrival_irrelevant (a1 a2 : arrival_order) l :
  lossless a1 -> lossless a2 ->
  NoDup (map Book.download_count l) ->
  Q.sort_desc (a1 l) = Q.sort_desc (a2 l).
Proof.
  intros H1 H2 Hk. apply sorted_desc_unique.
  - apply (Permutation_NoDup (l := map Book.download_count l)); [|exact Hk].
    apply Permutation_map.
    apply (Permutation_trans (H1 _)). apply sort_desc_perm.
  - apply (Permutation_trans (Permutation_sym (sort_desc_perm _))).
    apply (Permutation_trans (Permutation_sym (H1 _))).
    apply (Permutation_trans (H2 _)). apply sort_desc_perm.
  - apply sort_desc_sorted.
  - apply sort_desc_sorted.
Qed.

(** ** Walking the pages *)

Lemma flat_map_ext_In {A B} (f g : A -> list B) l :
  (forall x, In x l -> f x = g x) -> flat_map f l = flat_map g l.
Proof.
  induction l as [|a l IH]; simpl; intros H; [reflexivity|].
  rewrite (H a) by now left. f_equal. apply IH. intros x Hx. apply H. now right.
Qed.

Lemma flat_map_map {A B C} (h : B -> C) (c : A -> list B) l :
  flat_map (fun p => map h (c p)) l = map h (flat_map c l).
Proof.
  induction l as [|a l IH]; simpl; [reflexivity|]. now rewrite map_app, IH.
Qed.

Lemma page_offset (p : nat) (size : Z) :
  (1 <= p)%nat -> 0 <= size ->
  Z.to_nat ((Z.of_nat p - 1) * size) = ((p - 1) * Z.to_nat size)%nat.
Proof.
  intros Hp Hs. replace (Z.of_nat p - 1) with (Z.of_nat (p - 1)) by lia.
  rewrite Z2Nat.inj_mul by lia. now rewrite Nat2Z.id.
Qed.

Lemma total_pages_cover (n size : Z) :
  0 <= n -> 1 <= size ->
  0 <= (n + size - 1) / size /\ n <= (n + size - 1) / size * size.
Proof.
  intros Hn Hs.
  pose proof (Z.div_mod (n + size - 1) size ltac:(lia)) as Hd.
  pose proof (Z.mod_pos_bound (n + size - 1) size ltac:(lia)) as Hm.
  split; [apply Z.div_pos; lia | nia].
Qed.

Lemma sorted_selection_length (arrival : arrival_order) db q :
  lossless arrival ->
  List.length (Q.sort_desc (arrival (Q.selected db q)))
  = List.length (Q.selected db q).
Proof.
  intros Ha. symmetry. apply Permutation_length.
  apply (Permutation_trans (Ha _)). apply sort_desc_perm.
Qed.

Example walk_in_reverse_order :
  map br_id (walk_pages (fun _ => in_reverse_order) library (no_filters 1 2))
  = [1; 3; 2].
Proof. reflexivity. Qed.

(** ** One filter at a time *)

(** Removing one parameter leaves the activity and the predicate of the
    other filters as they are. *)
Ltac other_filters_unchanged rq' rq :=
  try change (book_id_active rq') with (book_id_active rq);
  try change (book_id_predicate rq') with (book_id_predicate rq);
  try change (language_active rq') with (language_active rq);
  try change (language_predicate ?db rq') with (language_predicate db rq);
  try change (mime_type_active rq') with (mime_type_active rq);
  try change (mime_type_predicate ?db rq') with (mime_type_predicate db rq);
  try change (topic_active rq') with (topic_active rq);
  try change (topic_predicate ?db rq') with (topic_predicate db rq);
  try change (author_active rq') with (author_active rq);
  try change (author_predicate ?db rq') with (author_predicate db rq);
  try change (title_active rq') with (title_active rq);
  try change (title_predicate rq') with (title_predicate rq).

Lemma satisfies_without_language db rq b :
  satisfies_active_filters db rq b
  <-> satisfies_active_filters db (without_language rq) b
      /\ (language_active rq -> language_predicate db rq b).
Proof.
  unfold satisfies_active_filters.
  assert (Hoff : ~ language_active (without_language rq)) by discriminate.
  generalize dependent (language_active (without_language rq)).
  generalize (language_predicate db (without_language rq) b).
  other_filters_unchanged (without_language rq) rq. tauto.
Qed.

Lemma satisfies_without_topic db rq b :
  satisfies_active_filters db rq b
  <-> satisfies_active_filters db (without_topic rq) b
      /\ (topic_active rq -> topic_predicate db rq b).
Proof.
  unfold satisfies_active_filters.
  assert (Hoff : ~ topic_active (without_topic rq)) by (intros H; now apply H).
  generalize dependent (topic_active (without_topic rq)).
  generalize (topic_predicate db (without_topic rq) b).
  other_filters_unchanged (without_topic rq) rq. tauto.
Qed.

(** The comparison is exact and sensitive to case: neither "EN" nor "e"
    selects a book written in "en". *)
Example language_examples :
  map (fun codes => map Book.id (selected_of library (only_language codes)))
      ["en"; "EN"; "e"; "fr,en"; " fr "]
  = [[1; 3]; []; []; [1; 2; 3]; [2; 3]].
Proof. reflexivity. Qed.

Lemma topic_predicate_plain db rq b :
  (forall t, In t (parse_comma_separated (Req.topic rq)) -> plain t = true) ->
  (topic_predicate db rq b
   <-> exists t, In t (parse_comma_separated (Req.topic rq))
                 /\ topic_token db b icontains t).
Proof.
  intros Hplain. unfold topic_predicate, topic_token, like_token.
  split; intros [t [Ht H]]; exists t; (split; [assumption|]);
    specialize (Hplain t Ht);
    (destruct H as [[s [H1 [H2 H3]]] | [s [H1 [H2 H3]]]];
     [left | right]; exists s; (split; [assumption|]); (split; [assumption|]);
     now apply (ilike_percent_plain _ _ Hplain)).
Qed.

Lemma author_predicate_plain db rq b :
  (forall t, In t (parse_comma_separated (Req.author rq)) -> plain t = true) ->
  (author_predicate db rq b <-> author_contains db rq b).
Proof.
  intros Hplain. unfold author_predicate, author_contains, like_token.
  split; intros [t [Ht [a [H1 [H2 H3]]]]]; exists t; (split; [assumption|]);
    exists a; (split; [assumption|]); (split; [assumption|]);
    now apply (ilike_percent_plain _ _ (Hplain t Ht)).
Qed.

Lemma title_predicate_plain rq b :
  (forall t, In t (parse_comma_separated (Req.title rq)) -> plain t = true) ->
  (title_predicate rq b <-> title_contains rq b).
Proof.
  intros Hplain. unfold title_predicate, title_contains, like_token.
  split; intros [t [Ht [s [H1 H2]]]]; exists t; (split; [assumption|]);
    exists s; (split; [assumption|]);
    now apply (ilike_percent_plain _ _ (Hplain t Ht)).
Qed.

Lemma truthy_of_tokens v : parse_comma_separated v <> [] -> Py.truthy v = true.
Proof.
  intros H. destruct (Py.truthy v) eqn:E; [reflexivity|].
  now rewrite (parse_falsy _ E) in H.
Qed.

(** Without wildcard characters and without blank-only values, what the
    source applies is what the specification words. *)
Lemma satisfies_as_specified db rq b :
  wildcard_free rq -> no_blank_value rq ->
  (satisfies_active_filters db rq b <-> meets_every_active_filter db rq b).
Proof.
  intros Hw [B1 [B2 B3]].
  unfold satisfies_active_filters, meets_every_active_filter,
    book_id_active, language_active, mime_type_active,
    topic_active, author_active, title_active.
  rewrite (topic_predicate_plain db rq b) by (intros t Ht; apply Hw; auto).
  rewrite (author_predicate_plain db rq b) by (intros t Ht; apply Hw; auto).
  rewrite (title_predicate_plain rq b) by (intros t Ht; apply Hw; auto).
  fold (topic_contains db rq b).
  pose proof (truthy_of_tokens (Req.book_id rq)) as T1.
  pose proof (truthy_of_tokens (Req.language rq)) as T2.
  pose proof (truthy_of_tokens (Req.mime_type rq)) as T3.
  tauto.
Qed.

Lemma selected_all_books db rq q :
  primary_key db ->
  compose_query rq = inr q ->
  (forall b, In b (books db) -> satisfies_active_filters db rq b) ->
  List.length (Q.selected db q) = List.length (books db).
Proof.
  intros Hk Hq Hall. apply Permutation_length. apply NoDup_Permutation.
  - now apply (selected_composed_NoDup db rq).
  - apply (NoDup_map_inv Book.id). exact Hk.
  - intros b. rewrite (selected_iff db rq q b Hq). split; [now intros [? _]|].
    intros Hb. split; [assumption | now apply Hall].
Qed.

(** A token that matches a bookshelf only ("napoleon"), and one that
    matches a subject only ("SEA"). *)
Example topic_examples :
  map (fun topics => map Book.id (selected_of library (only_topic topics)))
      ["napoleon"; "SEA"; "SEA, napoleon"; "poetry"; "_"; "%"]
  = [[2]; [1]; [1; 2]; []; [1; 2]; [1; 2]].
Proof. reflexivity. Qed.

(** ** Degenerate and malformed parameters *)

Lemma map_raise_None {A B} (f : A -> option B) l :
  Py.map_raise f l = None <-> exists x, In x l /\ f x = None.
Proof.
  induction l as [|a l IH]; simpl.
  - split; [discriminate | intros [x [[] _]]].
  - destruct (f a) eqn:Ea.
    + destruct (Py.map_raise f l) eqn:El.
      * split; [discriminate|]. intros [x [[<- | Hx] Hf]]; [congruence|].
        assert (Hn : Some l0 = None) by (apply IH; now exists x).
        discriminate Hn.
      * split; [|reflexivity]. intros _.
        destruct (proj1 IH eq_refl) as [x [Hx Hf]]. exists x. split; [now right|].
        exact Hf.
    + split; [|reflexivity]. intros _. exists a. split; [now left | exact Ea].
Qed.

(** A [book_id] with a token that is not an integer makes [get_books] raise
    [ValueError], whatever the store holds. *)
Lemma malformed_book_id_raises arrival db rq t :
  In t (parse_comma_separated (Req.book_id rq)) ->
  Py.int t = None ->
  get_books arrival db rq = inl ValueError.
Proof.
  intros Ht Hf. unfold get_books, compose_query.
  destruct (Py.truthy (Req.book_id rq)) eqn:E.
  - assert (Hn : Py.map_raise Py.int (parse_comma_separated (Req.book_id rq)) = None).
    { apply map_raise_None. now exists t. }
    now rewrite Hn.
  - rewrite (parse_falsy _ E) in Ht. contradiction.
Qed.

(** A [language] value that is not empty but has no token selects no book. *)
Lemma language_without_tokens_selects_nothing db rq q :
  compose_query rq = inr q ->
  language_active rq ->
  parse_comma_separated (Req.language rq) = [] ->
  Q.selected db q = [].
Proof.
  intros Hq Hact Hnil. destruct (Q.selected db q) as [|b l] eqn:E; [reflexivity|].
  assert (Hb : In b (Q.selected db q)) by (rewrite E; now left).
  apply (selected_iff db rq q b Hq) in Hb as [_ [_ [Hl _]]].
  destruct (Hl Hact) as [l' [_ [_ Hin]]]. rewrite Hnil in Hin. contradiction.
Qed.

(** A [topic] value that is not empty but has no token is not applied. *)
Lemma topic_without_tokens_is_not_applied rq :
  parse_comma_separated (Req.topic rq) = [] ->
  compose_query rq = compose_query (without_topic rq).
Proof.
  intros Hnil. rewrite !compose_query_closed_form.
  change (book_id_filter (without_topic rq)) with (book_id_filter rq).
  unfold other_filters, query_of, topic_conditions. rewrite Hnil. reflexivity.
Qed.

Example malformed_among_valid arrival db :
  books_endpoint arrival db (only_book_id "1, 2, x3") = Http500.
Proof. reflexivity. Qed.

Example out_of_range_page_size arrival db :
  is_client_error (books_endpoint arrival db (no_filters 1 101)) = true.
Proof. reflexivity. Qed.

(** * The claims *)

(** C1, as stated, fails in two ways.  The title token "%" is a LIKE
    pattern that matches every title, so the request returns the book whose
    title is empty, which does not contain "%".  And a [language] made of a
    comma has no token, so no filter is active, yet the request returns no
    book where the store has three. *)
Lemma C1_counterexample :
  (map br_id (results_of (get_books in_store_order library (only_title "%")))
   = [1; 2; 3]
   /\ In untitled (books library)
   /\ ~ meets_every_active_filter library (only_title "%") untitled)
  /\ (no_filter_has_a_token (only_language ",")
      /\ count_of (get_books in_store_order library (only_language ",")) = 0
      /\ List.length (books library) = 3%nat).
Proof.
  split; [split; [reflexivity | split; [right; right; now left|]]|].
  - intros [_ [_ [_ [_ [_ H]]]]].
    destruct (H ltac:(discriminate)) as [t [Ht [s [E C]]]].
    destruct Ht as [<- | []]. injection E as <-.
    apply containsb_iff in C. discriminate C.
  - repeat split; reflexivity.
Qed.

(** C1, amended.  For a request whose topic, author and title tokens have
    no wildcard character and whose [book_id], [language] and [mime_type],
    when given, have a token: the filters that have a token are combined
    with AND, and the tokens of one filter with OR.  Every book in [results]
    is a book of the store that satisfies every active filter; [count] is
    the number of books of the store that do, and all of them are in
    [results] when they fit on the first page; the same window without any
    filter counts every book of the store, and so does the request itself
    when no filter has a token. *)
Theorem C1_active_filters_are_conjoined arrival db rq resp :
  lossless arrival ->
  primary_key db ->
  countable db ->
  wildcard_free rq ->
  no_blank_value rq ->
  get_books arrival db rq = inr resp ->
  (forall r, In r (results resp) ->
     exists b, In b (books db) /\ r = book_response db b
               /\ meets_every_active_filter db rq b)
  /\ (exists l,
        NoDup (map Book.id l)
        /\ (forall b, In b l
                      <-> In b (books db) /\ meets_every_active_filter db rq b)
        /\ count resp = Z.of_nat (List.length l))
  /\ (Req.page rq = 1 -> count resp <= Req.page_size rq ->
      forall b, In b (books db) -> meets_every_active_filter db rq b ->
                In (book_response db b) (results resp))
  /\ (exists resp0,
        get_books arrival db (clear_filters rq) = inr resp0
        /\ count resp0 = Z.of_nat (List.length (books db)))
  /\ (no_filter_has_a_token rq -> count resp = Z.of_nat (List.length (books db))).
Proof.
  intros Ha Hk Hcnt Hw Hb H. pose proof (get_books_inr_bounds _ _ _ _ H) as HB.
  apply get_books_inr in H as [q [Hq [Hs [Ho [Hc [Hr _]]]]]].
  destruct HB as [_ [Bo Bs]].
  split; [|split; [|split; [|split]]].
  - intros r Hin. rewrite Hr in Hin. apply in_map_iff in Hin as [b [<- Hin]].
    apply (page_books_incl _ _ _ _ _ Ha) in Hin.
    apply (selected_iff db rq q b Hq) in Hin as [Hin Hsat].
    exists b. split; [assumption|]. split; [reflexivity|].
    now apply (satisfies_as_specified db rq b Hw Hb).
  - exists (Q.selected db q). split; [now apply (selected_ids_NoDup db rq)|].
    split; [|exact Hc]. intros b.
    rewrite (selected_iff db rq q b Hq).
    now rewrite (satisfies_as_specified db rq b Hw Hb).
  - intros Hp1 Hfit b Hin Hmeet. rewrite Hr. apply in_map.
    unfold page_books. rewrite Hp1.
    change (Z.to_nat ((1 - 1) * Req.page_size rq))
      with (Z.to_nat (0 * Req.page_size rq)).
    rewrite Z.mul_0_l. cbn [Z.to_nat skipn]. rewrite firstn_all2.
    + apply (Permutation_in _ (sort_desc_perm _)).
      apply (Permutation_in _ (Ha _)).
      apply (selected_iff db rq q b Hq). split; [assumption|].
      now apply (satisfies_as_specified db rq b Hw Hb).
    + rewrite (sorted_selection_length _ _ _ Ha). apply Nat2Z.inj_le.
      rewrite Z2Nat.id by lia. now rewrite <- Hc.
  - assert (Hq0 : compose_query (clear_filters rq)
                  = inr (query_of (clear_filters rq) [])) by reflexivity.
    assert (Hlen : List.length (Q.selected db (query_of (clear_filters rq) []))
                   = List.length (books db)).
    { apply (selected_all_books db (clear_filters rq) _ Hk Hq0).
      intros b _. repeat split; intros Hact; try discriminate Hact;
        now elim Hact. }
    assert (Hp : 1 <= Req.page rq).
    { apply Z.nlt_ge. intros Hlt.
      assert ((Req.page rq - 1) * Req.page_size rq < 0)
        by (apply Z.mul_neg_pos; lia). lia. }
    eexists. split.
    + apply (get_books_returns arrival db (clear_filters rq) _ Hq0);
        [exact Hp | exact Hs | rewrite Hlen; exact Hcnt | exact Bo | exact Bs].
    + cbn [count]. now rewrite Hlen.
  - intros [N1 [N2 [N3 [N4 [N5 N6]]]]]. rewrite Hc. f_equal.
    apply (selected_all_books db rq q Hk Hq). intros b _.
    apply (satisfies_as_specified db rq b Hw Hb).
    repeat split; intros Hact; contradiction.
Qed.

Lemma C1_witness :
  (forall r, In r (results_of (get_books in_store_order library english_moby)) ->
     exists b, In b (books library) /\ r = book_response library b
               /\ meets_every_active_filter library english_moby b)
  /\ (exists l,
        NoDup (map Book.id l)
        /\ (forall b, In b l
                      <-> In b (books library)
                          /\ meets_every_active_filter library english_moby b)
        /\ count_of (get_books in_store_order library english_moby)
           = Z.of_nat (List.length l))
  /\ (Req.page english_moby = 1 ->
      count_of (get_books in_store_order library english_moby)
      <= Req.page_size english_moby ->
      forall b, In b (books library) ->
                meets_every_active_filter library english_moby b ->
                In (book_response library b)
                   (results_of (get_books in_store_order library english_moby)))
  /\ (exists resp0,
        get_books in_store_order library (clear_filters english_moby) = inr resp0
        /\ count resp0 = 3)
  /\ (no_filter_has_a_token english_moby ->
      count_of (get_books in_store_order library english_moby) = 3).
Proof.
  apply (C1_active_filters_are_conjoined in_store_order library english_moby).
  - apply lossless_in_store_order.
  - apply primary_key_library.
  - unfold countable, max_bigint. simpl. lia.
  - intros t Ht. simpl in Ht. decompose [or] Ht; try contradiction; subst t;
      reflexivity.
  - repeat split; discriminate.
  - reflexivity.
Defined.

(** C2.  The code at the failing inputs: a [language], [book_id] or
    [mime_type] made of commas and blanks has no token, and yet the request
    returns no book, where the request without the parameter returns the
    three books of the small store; the same value for [topic] is ignored. *)
Theorem C2_comma_only_values :
  parse_comma_separated (Some ",") = []
  /\ parse_comma_separated (Some " , ") = []
  /\ ids_of (get_books in_store_order library (no_filters 1 25))
     = Some (3, [1; 2; 3], 1)
  /\ ids_of (get_books in_store_order library (only_language ","))
     = Some (0, [], 0)
  /\ ids_of (get_books in_store_order library (only_book_id " , "))
     = Some (0, [], 0)
  /\ ids_of (get_books in_store_order library (only_mime_type ","))
     = Some (0, [], 0)
  /\ ids_of (get_books in_store_order library (only_topic ","))
     = Some (3, [1; 2; 3], 1).
Proof. repeat split; reflexivity. Qed.

(** C3.  The code at the failing input: [book_id=abc] makes [get_books]
    raise [ValueError] for every store, and the client receives the answer
    for an unhandled exception, not a validation error. *)
Theorem C3_malformed_book_id arrival db :
  get_books arrival db (only_book_id "abc") = inl ValueError
  /\ books_endpoint arrival db (only_book_id "abc") = Http500
  /\ is_client_error (books_endpoint arrival db (only_book_id "abc")) = false.
Proof. repeat split; reflexivity. Qed.

(** C4, as stated, fails: the token is placed in a LIKE pattern as it is,
    so the token "_" stands for any one character.  It selects Moby Dick,
    whose subjects and bookshelf are named without an underscore. *)
Lemma C4_counterexample :
  parse_comma_separated (Req.topic (only_topic "_")) = ["_"]
  /\ In moby_dick (selected_of library (only_topic "_"))
  /\ ~ topic_token library moby_dick icontains "_".
Proof.
  split; [reflexivity|]. split; [now left|].
  unfold topic_token, icontains.
  intros [[s [H1 [_ H3]]] | [s [H1 [_ H3]]]];
    apply containsb_iff in H3; simpl in H1;
    decompose [or] H1; try contradiction; subst s; discriminate H3.
Qed.

(** C4, amended.  With a topic filter, a book is selected exactly when it
    is a book of the store that satisfies the other active filters and
    matches at least one topic token; and a token that contains none of the
    characters [%], [_] and backslash is matched exactly by the books that
    have an associated subject or an associated bookshelf whose name
    contains the token, the case of letters being ignored. *)
Theorem C4_topic_matches_subject_or_bookshelf db rq q :
  compose_query rq = inr q ->
  topic_active rq ->
  forall b,
    In b (Q.selected db q)
    <-> In b (books db)
        /\ satisfies_active_filters db (without_topic rq) b
        /\ exists t, In t (parse_comma_separated (Req.topic rq))
                     /\ topic_match db b t.
Proof.
  intros Hq Hact b.
  rewrite (selected_iff db rq q b Hq), satisfies_without_topic.
  assert (Hm : forall t, topic_token db b like_token t <-> topic_match db b t).
  { intros t. unfold topic_match. destruct (plain t) eqn:Ep.
    - assert (E : topic_token db b like_token t <-> topic_token db b icontains t).
      { unfold topic_token, like_token.
        split; (intros [[s [H1 [H2 H3]]] | [s [H1 [H2 H3]]]];
                [left | right]; exists s; (split; [assumption|]);
                (split; [assumption|]); now apply (ilike_percent_plain _ _ Ep)). }
      rewrite E. unfold topic_token. split.
      + intros H. left. now split.
      + intros [[_ H] | [H _]]; [exact H | discriminate H].
    - split.
      + intros H. right. now split.
      + intros [[H _] | [_ H]]; [discriminate H | exact H]. }
  unfold topic_predicate. split.
  - intros [Hb [Hs Ht]]. split; [assumption|]. split; [assumption|].
    destruct (Ht Hact) as [t [Hin H]]. exists t. split; [assumption|].
    now apply Hm.
  - intros [Hb [Hs [t [Hin H]]]]. split; [assumption|]. split; [assumption|].
    intros _. exists t. split; [assumption|]. now apply Hm.
Qed.

Lemma C4_witness :
  In war_and_peace (selected_of library (only_topic "sea, NAPOLEON,_"))
  <-> In war_and_peace (books library)
      /\ satisfies_active_filters library
           (without_topic (only_topic "sea, NAPOLEON,_")) war_and_peace
      /\ exists t,
           In t (parse_comma_separated (Req.topic (only_topic "sea, NAPOLEON,_")))
           /\ topic_match library war_and_peace t.
Proof.
  apply (C4_topic_matches_subject_or_bookshelf library
           (only_topic "sea, NAPOLEON,_") _ eq_refl).
  discriminate.
Defined.



(** C6, as stated, fails in two ways.  Each page is a query of its own, and
    the query leaves the order of books with equal [download_count] open: on
    the small store, with one book per page, the second page read in store
    order and the third in reverse order both return book 2, and book 3 is
    never returned.  And a page whose offset does not fit 64 bits is refused
    by the store: the request fails instead of returning an empty page. *)
Lemma C6_counterexample :
  ((forall p, lossless (flips_at_page_three p))
   /\ primary_key library
   /\ map br_id (walk_pages flips_at_page_three library (no_filters 1 1)) = [1; 2; 2]
   /\ ~ NoDup (map br_id (walk_pages flips_at_page_three library (no_filters 1 1))))
  /\ (total_pages_of (get_books in_store_order library (no_filters 1 1)) < far_page
      /\ get_books in_store_order library (no_filters far_page 1) = inl DBAPIError).
Proof.
  split.
  - split; [apply lossless_flips_at_page_three|].
    split; [apply primary_key_library|].
    split; [reflexivity|].
    change (~ NoDup [1; 2; 2]). intros H.
    inversion H as [|? ? _ H']; subst. inversion H' as [|? ? Hn _]; subst.
    apply Hn. now left.
  - split; reflexivity.
Qed.

(** C6, amended.  When the store hands over the rows in the same order at
    every page request, the [results] of pages 1 to [total_pages], put end to
    end, are the books that satisfy the active filters, each once, in
    decreasing order of [download_count].  A page after the last whose
    offset [(page - 1) * page_size] fits 64 bits returns an empty [results]
    with the same [count] and [total_pages], whatever the order of the rows;
    with a larger offset the request fails. *)
Theorem C6_pages_cover_the_selection arrival db rq first :
  (forall p, lossless (arrival p)) ->
  (forall p l, arrival p l = arrival 1%nat l) ->
  primary_key db ->
  get_books (arrival 1%nat) db (with_page rq 1) = inr first ->
  (exists l,
     walk_pages arrival db rq = map (book_response db) l
     /\ NoDup (map Book.id l)
     /\ (forall b, In b l <-> In b (books db) /\ satisfies_active_filters db rq b)
     /\ sorted_desc l)
  /\ (forall any_arrival p,
        lossless any_arrival -> total_pages first < p ->
        (p - 1) * Req.page_size rq <= max_bigint ->
        get_books any_arrival db (with_page rq p)
        = inr {| count := count first; results := []; page := p;
                 total_pages := total_pages first |})
  /\ (forall any_arrival p,
        max_bigint < (p - 1) * Req.page_size rq ->
        get_books any_arrival db (with_page rq p) = inl DBAPIError).
Proof.
  intros Ha Hsame Hk H.
  pose proof H as H0. pose proof (get_books_inr_bounds _ _ _ _ H) as [Bc [_ Bs]].
  apply get_books_inr in H as [q [Hq [Hs [_ [Hc [_ [_ Ht]]]]]]].
  rewrite compose_query_with_page in Hq.
  cbn [with_page Req.page_size] in Hs, Ht, Bs.
  set (size := Req.page_size rq) in *.
  set (L := Q.sort_desc (arrival 1%nat (Q.selected db q))).
  assert (HL : List.length L = List.length (Q.selected db q))
    by (apply sorted_selection_length, Ha).
  destruct (total_pages_cover (count first) size) as [Htp Hcover];
    [rewrite Hc; lia | assumption |].
  rewrite <- Ht in Htp, Hcover.
  assert (Hlast : (total_pages first - 1) * size < count first).
  { pose proof (Z.div_mod (count first + size - 1) size ltac:(lia)) as Hd.
    pose proof (Z.mod_pos_bound (count first + size - 1) size ltac:(lia)) as Hm.
    rewrite <- Ht in Hd. nia. }
  split; [|split].
  - exists L. split; [|split; [|split]].
    + unfold walk_pages. rewrite H0. cbn [total_pages_of].
      rewrite (flat_map_ext_In _
                 (fun p => map (book_response db)
                             (firstn (Z.to_nat size)
                                (skipn ((p - 1) * Z.to_nat size) L)))).
      * rewrite flat_map_map, pages_concat, firstn_all2; [reflexivity|].
        rewrite HL. apply Nat2Z.inj_le. rewrite Nat2Z.inj_mul, !Z2Nat.id by lia.
        rewrite <- Hc. exact Hcover.
      * intros p Hp. apply in_seq in Hp.
        rewrite (get_books_returns (arrival p) db (with_page rq (Z.of_nat p)) q);
          [|now rewrite compose_query_with_page | cbn; lia | cbn; fold size; lia
           |rewrite <- Hc; exact Bc | cbn; fold size; nia | cbn; fold size; lia].
        cbn [results_of results with_page Req.page Req.page_size].
        unfold page_books. fold size.
        rewrite page_offset by lia. unfold L.
        now rewrite (Hsame p).
    + now apply (sorted_selection_ids_NoDup (arrival 1%nat) db rq).
    + intros b. rewrite <- (selected_iff db rq q b Hq). unfold L. split.
      * intros Hb.
        apply (Permutation_in _ (Permutation_sym (sort_desc_perm _))) in Hb.
        now apply (Permutation_in _ (Permutation_sym (Ha 1%nat _))) in Hb.
      * intros Hb. apply (Permutation_in _ (sort_desc_perm _)).
        now apply (Permutation_in _ (Ha 1%nat _)).
    + apply sort_desc_sorted.
  - intros a p Hla Hp Hfit.
    rewrite (get_books_returns a db (with_page rq p) q);
      [|now rewrite compose_query_with_page | cbn; lia | cbn; fold size; lia
       |rewrite <- Hc; exact Bc | cbn; fold size; exact Hfit
       | cbn; fold size; lia].
    cbn [with_page Req.page Req.page_size]. fold size.
    rewrite <- Hc, <- Ht. f_equal. f_equal.
    unfold page_books. rewrite skipn_all2; [now rewrite firstn_nil|].
    rewrite (sorted_selection_length a db q Hla).
    apply Nat2Z.inj_le. rewrite Z2Nat.id by nia. rewrite <- Hc. nia.
  - intros a p Hfar.
    apply (get_books_offset_out_of_range a db (with_page rq p) q).
    + now rewrite compose_query_with_page.
    + rewrite <- Hc. exact Bc.
    + exact Hfar.
Qed.

Lemma C6_witness :
  (exists l,
     walk_pages (fun _ => in_reverse_order) library (no_filters 1 2)
     = map (book_response library) l
     /\ NoDup (map Book.id l)
     /\ (forall b, In b l
                   <-> In b (books library)
                       /\ satisfies_active_filters library (no_filters 1 2) b)
     /\ sorted_desc l)
  /\ (forall any_arrival p,
        lossless any_arrival -> 2 < p ->
        (p - 1) * 2 <= max_bigint ->
        get_books any_arrival library (with_page (no_filters 1 2) p)
        = inr {| count := 3; results := []; page := p; total_pages := 2 |})
  /\ (forall any_arrival p,
        max_bigint < (p - 1) * 2 ->
        get_books any_arrival library (with_page (no_filters 1 2) p)
        = inl DBAPIError).
Proof.
  exact (C6_pages_cover_the_selection (fun _ => in_reverse_order) library
           (no_filters 1 2) _
           (fun _ => lossless_in_reverse_order) (fun _ _ => eq_refl)
           primary_key_library eq_refl).
Defined.

(** C7.  [total_pages] is the ceiling of [count / page_size]: the integer
    [n] with [(n - 1) * page_size < count <= n * page_size]; and it is 0
    when [count] is 0. *)
Theorem C7_total_pages_is_the_ceiling arrival db rq resp :
  get_books arrival db rq = inr resp ->
  (total_pages resp - 1) * Req.page_size rq < count resp
  /\ count resp <= total_pages resp * Req.page_size rq
  /\ (count resp = 0 -> total_pages resp = 0).
Proof.
  intros H. apply get_books_inr in H as [q [_ [Hs [_ [Hc [_ [_ Ht]]]]]]].
  assert (Hn : 0 <= count resp) by (rewrite Hc; lia).
  set (s := Req.page_size rq) in *. set (c := count resp) in *.
  pose proof (Z.div_mod (c + s - 1) s ltac:(lia)) as Hd.
  pose proof (Z.mod_pos_bound (c + s - 1) s ltac:(lia)) as Hm.
  rewrite <- Ht in Hd. split; [nia | split; [nia|]].
  intros Hz. rewrite Ht, Hz. apply Z.div_small. lia.
Qed.

Lemma C7_witness :
  (total_pages_of (get_books in_store_order library (no_filters 1 2)) - 1) * 2
    < count_of (get_books in_store_order library (no_filters 1 2))
  /\ count_of (get_books in_store_order library (no_filters 1 2))
     <= total_pages_of (get_books in_store_order library (no_filters 1 2)) * 2
  /\ (count_of (get_books in_store_order library (no_filters 1 2)) = 0 ->
      total_pages_of (get_books in_store_order library (no_filters 1 2)) = 0).
Proof.
  exact (C7_total_pages_is_the_ceiling in_store_order library (no_filters 1 2) _
           eq_refl).
Defined.

(** C8, as stated, fails: the query orders by [download_count] alone, so
    two executions may hand over books 2 and 3 of the small store, which
    both have 50 downloads, in either order. *)
Lemma C8_counterexample :
  lossless in_store_order /\ lossless in_reverse_order
  /\ map br_id (results_of (get_books in_store_order library (no_filters 1 25)))
     = [1; 2; 3]
  /\ map br_id (results_of (get_books in_reverse_order library (no_filters 1 25)))
     = [1; 3; 2].
Proof.
  split; [apply lossless_in_store_order|].
  split; [apply lossless_in_reverse_order|].
  split; reflexivity.
Qed.

(** C8, amended.  The books of [results] are books of the store that
    satisfy the active filters, in decreasing order of their
    [download_count]; the order among books with equal [download_count] is
    not fixed by the query, and when no two books that satisfy the active
    filters have the same [download_count], every execution of the same
    query on the same store returns the same books in the same order, with
    the same [count] and [total_pages]. *)
Theorem C8_sorted_by_downloads arrival db rq resp :
  lossless arrival ->
  get_books arrival db rq = inr resp ->
  (exists selected_books,
     results resp = map (book_response db) selected_books
     /\ (forall b, In b selected_books ->
           In b (books db) /\ satisfies_active_filters db rq b)
     /\ sorted_desc selected_books)
  /\ ((forall b1 b2,
         In b1 (books db) -> satisfies_active_filters db rq b1 ->
         In b2 (books db) -> satisfies_active_filters db rq b2 ->
         Book.download_count b1 = Book.download_count b2 -> b1 = b2) ->
      forall arrival', lossless arrival' ->
        exists resp',
          get_books arrival' db rq = inr resp'
          /\ map br_id (results resp') = map br_id (results resp)
          /\ count resp' = count resp
          /\ total_pages resp' = total_pages resp).
Proof.
  intros Ha H. pose proof (get_books_inr_bounds _ _ _ _ H) as [Bc [Bo Bs]].
  apply get_books_inr in H as [q [Hq [Hs [Ho [Hc [Hr [Hp Ht]]]]]]]. split.
  - exists (page_books arrival db q (Req.page rq) (Req.page_size rq)).
    split; [exact Hr|]. split; [|apply page_books_sorted].
    intros b Hb. apply (page_books_incl _ _ _ _ _ Ha) in Hb.
    now apply (selected_iff db rq q b Hq).
  - intros Hties arrival' Ha'.
    assert (Hpage : 1 <= Req.page rq).
    { apply Z.nlt_ge. intros Hlt.
      assert ((Req.page rq - 1) * Req.page_size rq < 0)
        by (apply Z.mul_neg_pos; lia). lia. }
    eexists. split.
    + apply (get_books_returns arrival' db rq q Hq Hpage Hs);
        [rewrite <- Hc; exact Bc | exact Bo | exact Bs].
    + cbn [results count total_pages]. rewrite Hr, Ht, Hc.
      split; [|split; reflexivity]. f_equal. f_equal. unfold page_books.
      rewrite (sort_desc_arrival_irrelevant arrival' arrival); auto.
      apply NoDup_map_inj_on.
      * now apply (selected_composed_NoDup db rq).
      * intros x y Hx Hy. apply (selected_iff db rq q _ Hq) in Hx, Hy.
        destruct Hx, Hy. now apply Hties.
Qed.

Lemma C8_witness :
  (exists selected_books,
     results_of (get_books in_reverse_order library (no_filters 1 25))
     = map (book_response library) selected_books
     /\ (forall b, In b selected_books ->
           In b (books library)
           /\ satisfies_active_filters library (no_filters 1 25) b)
     /\ sorted_desc selected_books)
  /\ ((forall b1 b2,
         In b1 (books library) ->
         satisfies_active_filters library (no_filters 1 25) b1 ->
         In b2 (books library) ->
         satisfies_active_filters library (no_filters 1 25) b2 ->
         Book.download_count b1 = Book.download_count b2 -> b1 = b2) ->
      forall arrival', lossless arrival' ->
        exists resp',
          get_books arrival' library (no_filters 1 25) = inr resp'
          /\ map br_id (results resp')
             = map br_id (results_of (get_books in_reverse_order library
                                        (no_filters 1 25)))
          /\ count resp' = 3
          /\ total_pages resp' = 1).
Proof.
  exact (C8_sorted_by_downloads in_reverse_order library (no_filters 1 25) _
           lossless_in_reverse_order eq_refl).
Defined.

(** C9.  With a language filter, a book is selected exactly when it is a
    book of the store that satisfies the other active filters and has an
    associated language whose code is equal, letter for letter, to one of
    the tokens. *)
Theorem C9_language_code_is_matched_exactly db rq q :
  compose_query rq = inr q ->
  language_active rq ->
  forall b,
    In b (Q.selected db q)
    <-> In b (books db)
        /\ satisfies_active_filters db (without_language rq) b
        /\ exists l, In l (languages db)
                     /\ In (Book.id b, Language.id l) (book_languages db)
                     /\ exists t, In t (parse_comma_separated (Req.language rq))
                                  /\ Language.code l = t.
Proof.
  intros Hq Hact b.
  rewrite (selected_iff db rq q b Hq), satisfies_without_language.
  unfold language_predicate. split.
  - intros [Hb [Hs Hl]]. split; [assumption|]. split; [assumption|].
    destruct (Hl Hact) as [l [H1 [H2 H3]]]. exists l. repeat split; auto.
    now exists (Language.code l).
  - intros [Hb [Hs [l [H1 [H2 [t [H3 H4]]]]]]]. split; [assumption|].
    split; [assumption|]. intros _. exists l. repeat split; auto. now rewrite H4.
Qed.

Lemma C9_witness :
  In untitled (selected_of library (only_language "de, fr"))
  <-> In untitled (books library)
      /\ satisfies_active_filters library
           (without_language (only_language "de, fr")) untitled
      /\ exists l, In l (languages library)
                   /\ In (Book.id untitled, Language.id l) (book_languages library)
                   /\ exists t,
                        In t (parse_comma_separated
                                (Req.language (only_language "de, fr")))
                        /\ Language.code l = t.
Proof.
  apply (C9_language_code_is_matched_exactly library (only_language "de, fr") _
           eq_refl).
  reflexivity.
Defined.

(** C10.  The books of a response are books of the store, projected one by
    one; a book whose stored title is the empty string (or is missing) gets
    the title "Unknown". *)
Theorem C10_empty_title_is_Unknown arrival db rq resp :
  lossless arrival ->
  get_books arrival db rq = inr resp ->
  exists selected_books,
    results resp = map (book_response db) selected_books
    /\ incl selected_books (books db)
    /\ forall b, In b selected_books ->
         (Book.title b = Some "" \/ Book.title b = None) ->
         br_title (book_response db b) = "Unknown".
Proof.
  intros Ha H. apply get_books_inr in H as [q [_ [_ [_ [_ [Hr _]]]]]].
  exists (page_books arrival db q (Req.page rq) (Req.page_size rq)).
  split; [exact Hr|]. split.
  - intros b Hb. apply (page_books_incl _ _ _ _ _ Ha) in Hb.
    now apply selected_incl_books in Hb.
  - intros b _ [E | E]; simpl; now rewrite E.
Qed.

Lemma C10_witness :
  exists selected_books,
    results_of (get_books in_store_order library (no_filters 3 1))
    = map (book_response library) selected_books
    /\ incl selected_books (books library)
    /\ forall b, In b selected_books ->
         (Book.title b = Some "" \/ Book.title b = None) ->
         br_title (book_response library b) = "Unknown".
Proof.
  exact (C10_empty_title_is_Unknown in_store_order library (no_filters 3 1) _
           lossless_in_store_order eq_refl).
Defined.

(** * Further properties *)

(** ** The tokens of [parse_comma_separated] *)

Lemma lstrip_head s :
  match Py.lstrip s with
  | "" => True
  | String c _ => Py.isspace c = false
  end.
Proof.
  induction s as [|c s IH]; simpl; [exact I|].
  destruct (Py.isspace c) eqn:E; [exact IH | exact E].
Qed.

Lemma lstrip_fixed c s : Py.isspace c = false -> Py.lstrip (String c s) = String c s.
Proof. intros H. simpl. now rewrite H. Qed.

Lemma rstrip_head c s :
  Py.isspace c = false ->
  exists r, Py.rstrip (String c s) = String c r.
Proof.
  intros H. simpl. destruct (Py.rstrip s).
  - rewrite H. now exists "".
  - now eexists.
Qed.

Lemma rstrip_idempotent s : Py.rstrip (Py.rstrip s) = Py.rstrip s.
Proof.
  induction s as [|c s IH]; [reflexivity|].
  simpl. destruct (Py.rstrip s) as [|d r] eqn:E.
  - destruct (Py.isspace c) eqn:Ec; [reflexivity|]. simpl. now rewrite Ec.
  - simpl. simpl in IH. destruct (Py.rstrip r) as [|e r'] eqn:Er.
    + destruct (Py.isspace d) eqn:Ed; [discriminate IH|].
      now rewrite IH.
    + now rewrite IH.
Qed.

Lemma strip_idempotent s : Py.strip (Py.strip s) = Py.strip s.
Proof.
  unfold Py.strip. pose proof (lstrip_head s) as H.
  destruct (Py.lstrip s) as [|c r] eqn:E; [reflexivity|].
  destruct (rstrip_head c r H) as [r' Hr]. rewrite Hr.
  rewrite (lstrip_fixed _ _ H). rewrite <- Hr. apply rstrip_idempotent.
Qed.

Lemma comma_free_lstrip s : comma_free s = true -> comma_free (Py.lstrip s) = true.
Proof.
  induction s as [|c s IH]; [trivial|]. intros H. simpl.
  destruct (Py.isspace c); [|exact H].
  simpl in H. apply andb_true_iff in H as [_ H]. now apply IH.
Qed.

Lemma comma_free_rstrip s : comma_free s = true -> comma_free (Py.rstrip s) = true.
Proof.
  induction s as [|c s IH]; [trivial|]. intros H.
  simpl in H. apply andb_true_iff in H as [Hc H]. specialize (IH H).
  simpl. destruct (Py.rstrip s) as [|d r].
  - destruct (Py.isspace c); [reflexivity|]. simpl. now rewrite Hc.
  - change (comma_free (String c (String d r)) = true).
    change (negb (Ascii.eqb c ",") && comma_free (String d r) = true).
    now rewrite Hc, IH.
Qed.

Lemma comma_free_strip s : comma_free s = true -> comma_free (Py.strip s) = true.
Proof. intros H. unfold Py.strip. now apply comma_free_rstrip, comma_free_lstrip. Qed.

Lemma split_comma_fields s f : In f (Py.split_comma s) -> comma_free f = true.
Proof.
  revert f. induction s as [|c s IH]; intros f; simpl.
  - intros [<- | []]. reflexivity.
  - destruct (Ascii.eqb c ",") eqn:Ec.
    + intros [<- | H]; [reflexivity | now apply IH].
    + destruct (Py.split_comma s) as [|h t].
      * intros [<- | []]. simpl. now rewrite Ec.
      * intros [<- | H].
        -- simpl. rewrite Ec. simpl. apply IH. now left.
        -- apply IH. now right.
Qed.

(** X1.  Every token [parse_comma_separated] returns is not empty, has no
    blank at either end, and contains no comma. *)
Theorem X1_tokens_are_clean value t :
  In t (parse_comma_separated value) -> clean_token t.
Proof.
  unfold parse_comma_separated, clean_token.
  destruct (Py.truthy value); [|contradiction]. simpl.
  destruct value as [v|]; [|contradiction].
  intros H. apply in_map_iff in H as [f [<- Hf]].
  apply filter_In in Hf as [Hin Ht]. split; [|split].
  - intros E. rewrite E in Ht. discriminate Ht.
  - apply strip_idempotent.
  - apply comma_free_strip. now apply (split_comma_fields v).
Qed.

Lemma X1_witness : clean_token "fr".
Proof.
  apply (X1_tokens_are_clean (Some " en ,, fr ,")). simpl. right. now left.
Defined.

Lemma split_comma_not_nil s : Py.split_comma s <> [].
Proof.
  induction s as [|c s IH]; simpl; [discriminate|].
  destruct (Ascii.eqb c ","); [discriminate|].
  destruct (Py.split_comma s); discriminate.
Qed.

Lemma split_comma_String c r :
  Py.split_comma (String c r)
  = if Ascii.eqb c "," then "" :: Py.split_comma r
    else match Py.split_comma r with
         | h :: t => String c h :: t
         | [] => [String c ""]
         end.
Proof. reflexivity. Qed.

Lemma split_comma_one t : comma_free t = true -> Py.split_comma t = [t].
Proof.
  induction t as [|c t IH]; [reflexivity|]. simpl. intros H.
  apply andb_true_iff in H as [Hc H]. apply negb_true_iff in Hc.
  now rewrite Hc, (IH H).
Qed.

Lemma split_comma_cons t rest :
  comma_free t = true ->
  Py.split_comma (t ++ "," ++ rest)%string = t :: Py.split_comma rest.
Proof.
  induction t as [|c t IH]; [reflexivity|]. intros H.
  simpl in H. apply andb_true_iff in H as [Hc H]. apply negb_true_iff in Hc.
  change (String c t ++ "," ++ rest)%string
    with (String c (t ++ "," ++ rest)%string).
  rewrite split_comma_String, Hc, (IH H). reflexivity.
Qed.

Lemma split_comma_join tokens :
  tokens <> [] ->
  (forall t, In t tokens -> comma_free t = true) ->
  Py.split_comma (comma_join tokens) = tokens.
Proof.
  induction tokens as [|t rest IH]; [congruence|]. intros _ H.
  destruct rest as [|u rest].
  - simpl. apply split_comma_one. apply H. now left.
  - change (comma_join (t :: u :: rest))
      with (t ++ "," ++ comma_join (u :: rest))%string.
    rewrite split_comma_cons by (apply H; now left).
    f_equal. apply IH; [discriminate|]. intros x Hx. apply H. now right.
Qed.

Lemma comma_join_truthy t rest : t <> "" -> Py.truthy (Some (comma_join (t :: rest))) = true.
Proof.
  intros H. destruct t as [|c t]; [congruence|].
  destruct rest; reflexivity.
Qed.

(** X2.  Round trip: a list of clean tokens, joined with commas, parses back
    to the same list, in the same order. *)
Theorem X2_parse_of_join tokens :
  (forall t, In t tokens -> clean_token t) ->
  parse_comma_separated (Some (comma_join tokens)) = tokens.
Proof.
  intros H. destruct tokens as [|t rest]; [reflexivity|].
  unfold parse_comma_separated.
  rewrite comma_join_truthy by (apply (H t); now left). cbn [negb].
  rewrite split_comma_join; [|discriminate|intros x Hx; apply (H x Hx)].
  rewrite forallb_filter_id.
  - rewrite <- (map_id (t :: rest)) at 2. apply map_ext_in.
    intros x Hx. apply (H x Hx).
  - apply forallb_forall. intros x Hx. destruct (H x Hx) as [Hne [Hs _]].
    rewrite Hs. destruct x; [congruence | reflexivity].
Qed.

Lemma X2_witness : parse_comma_separated (Some (comma_join ["en"; "fr"])) = ["en"; "fr"].
Proof.
  apply (X2_parse_of_join ["en"; "fr"]).
  intros t [<- | [<- | []]]; (split; [discriminate | split; reflexivity]).
Defined.

(** ** The other filters, one at a time *)

Lemma satisfies_without_book_id db rq b :
  satisfies_active_filters db rq b
  <-> satisfies_active_filters db (without_book_id rq) b
      /\ (book_id_active rq -> book_id_predicate rq b).
Proof.
  unfold satisfies_active_filters.
  assert (Hoff : ~ book_id_active (without_book_id rq)) by discriminate.
  generalize dependent (book_id_active (without_book_id rq)).
  generalize (book_id_predicate (without_book_id rq) b).
  other_filters_unchanged (without_book_id rq) rq. tauto.
Qed.

Lemma satisfies_without_mime_type db rq b :
  satisfies_active_filters db rq b
  <-> satisfies_active_filters db (without_mime_type rq) b
      /\ (mime_type_active rq -> mime_type_predicate db rq b).
Proof.
  unfold satisfies_active_filters.
  assert (Hoff : ~ mime_type_active (without_mime_type rq)) by discriminate.
  generalize dependent (mime_type_active (without_mime_type rq)).
  generalize (mime_type_predicate db (without_mime_type rq) b).
  other_filters_unchanged (without_mime_type rq) rq. tauto.
Qed.

Lemma satisfies_without_author db rq b :
  satisfies_active_filters db rq b
  <-> satisfies_active_filters db (without_author rq) b
      /\ (author_active rq -> author_predicate db rq b).
Proof.
  unfold satisfies_active_filters.
  assert (Hoff : ~ author_active (without_author rq)) by (intros H; now apply H).
  generalize dependent (author_active (without_author rq)).
  generalize (author_predicate db (without_author rq) b).
  other_filters_unchanged (without_author rq) rq. tauto.
Qed.

Lemma satisfies_with_title db rq v b :
  satisfies_active_filters db (with_title rq v) b
  <-> satisfies_active_filters db (without_title rq) b
      /\ (title_active (with_title rq v) -> title_predicate (with_title rq v) b).
Proof.
  unfold satisfies_active_filters.
  assert (Hoff : ~ title_active (without_title rq)) by (intros H; now apply H).
  generalize dependent (title_active (without_title rq)).
  generalize (title_predicate (without_title rq) b).
  generalize (title_active (with_title rq v)).
  generalize (title_predicate (with_title rq v) b).
  other_filters_unchanged (without_title rq) rq.
  other_filters_unchanged (with_title rq v) rq. tauto.
Qed.

Lemma with_title_same rq : with_title rq (Req.title rq) = rq.
Proof. now destruct rq. Qed.

Lemma satisfies_without_title db rq b :
  satisfies_active_filters db rq b
  <-> satisfies_active_filters db (without_title rq) b
      /\ (title_active rq -> title_predicate rq b).
Proof.
  pose proof (satisfies_with_title db rq (Req.title rq) b) as H.
  now rewrite with_title_same in H.
Qed.

Lemma satisfies_with_language db rq v b :
  satisfies_active_filters db (with_language rq v) b
  <-> satisfies_active_filters db (without_language rq) b
      /\ (language_active (with_language rq v)
          -> language_predicate db (with_language rq v) b).
Proof.
  unfold satisfies_active_filters.
  assert (Hoff : ~ language_active (without_language rq)) by discriminate.
  generalize dependent (language_active (without_language rq)).
  generalize (language_predicate db (without_language rq) b).
  generalize (language_active (with_language rq v)).
  generalize (language_predicate db (with_language rq v) b).
  other_filters_unchanged (without_language rq) rq.
  other_filters_unchanged (with_language rq v) rq. tauto.
Qed.

Lemma compose_query_without_book_id rq :
  exists q', compose_query (without_book_id rq) = inr q'.
Proof. rewrite compose_query_closed_form. cbn. eauto. Qed.

Lemma compose_query_same_book_id rq rq' q :
  Req.book_id rq' = Req.book_id rq ->
  compose_query rq = inr q ->
  exists q', compose_query rq' = inr q'.
Proof.
  intros E. rewrite !compose_query_closed_form. unfold book_id_filter. rewrite E.
  destruct (Py.truthy (Req.book_id rq)); [|intros _; eauto].
  destruct (Py.map_raise Py.int (parse_comma_separated (Req.book_id rq)));
    [intros _; eauto | discriminate].
Qed.

(** X3.  With a [book_id] filter, the books selected are those the same
    request without it selects and whose id is one of the integers given. *)
Theorem X3_book_id_filter db rq q :
  compose_query rq = inr q ->
  book_id_active rq ->
  exists ids q',
    Py.map_raise Py.int (parse_comma_separated (Req.book_id rq)) = Some ids
    /\ compose_query (without_book_id rq) = inr q'
    /\ forall b, In b (Q.selected db q)
                 <-> In b (Q.selected db q') /\ In (Book.id b) ids.
Proof.
  intros Hq Hact. destruct (compose_query_without_book_id rq) as [q' Hq'].
  assert (Hids : exists ids,
             Py.map_raise Py.int (parse_comma_separated (Req.book_id rq)) = Some ids).
  { rewrite compose_query_closed_form in Hq. unfold book_id_filter in Hq.
    rewrite Hact in Hq.
    destruct (Py.map_raise Py.int (parse_comma_separated (Req.book_id rq)));
      [eauto | discriminate]. }
  destruct Hids as [ids Hids]. exists ids, q'.
  split; [exact Hids|]. split; [exact Hq'|]. intros b.
  rewrite (selected_iff db rq q b Hq), (selected_iff db _ q' b Hq').
  rewrite satisfies_without_book_id. unfold book_id_predicate. rewrite Hids. split.
  - intros [Hb [Hs Hp]]. destruct (Hp Hact) as [ids' [E Hin]].
    injection E as <-. tauto.
  - intros [[Hb Hs] Hin]. split; [assumption|]. split; [assumption|].
    intros _. now exists ids.
Qed.

Lemma X3_witness :
  exists ids q',
    Py.map_raise Py.int (parse_comma_separated (Req.book_id (only_book_id "3, 1, 7")))
    = Some ids
    /\ compose_query (without_book_id (only_book_id "3, 1, 7")) = inr q'
    /\ forall b, In b (selected_of library (only_book_id "3, 1, 7"))
                 <-> In b (Q.selected library q') /\ In (Book.id b) ids.
Proof.
  exact (X3_book_id_filter library (only_book_id "3, 1, 7") _ eq_refl eq_refl).
Defined.

(** X4.  With a [mime_type] filter, the books selected are those the same
    request without it selects and that have a format whose mime type is
    equal to one of the tokens. *)
Theorem X4_mime_type_filter db rq q :
  compose_query rq = inr q ->
  mime_type_active rq ->
  exists q',
    compose_query (without_mime_type rq) = inr q'
    /\ forall b,
         In b (Q.selected db q)
         <-> In b (Q.selected db q')
             /\ exists f, In f (formats db)
                          /\ Format.book_id f = Book.id b
                          /\ In (Format.mime_type f)
                                (parse_comma_separated (Req.mime_type rq)).
Proof.
  intros Hq Hact.
  destruct (compose_query_same_book_id rq (without_mime_type rq) q eq_refl Hq)
    as [q' Hq'].
  exists q'. split; [exact Hq'|]. intros b.
  rewrite (selected_iff db rq q b Hq), (selected_iff db _ q' b Hq').
  rewrite satisfies_without_mime_type. unfold mime_type_predicate. tauto.
Qed.

Lemma X4_witness :
  exists q',
    compose_query (without_mime_type (plain_texts 1 25)) = inr q'
    /\ forall b,
         In b (selected_of library (plain_texts 1 25))
         <-> In b (Q.selected library q')
             /\ exists f, In f (formats library)
                          /\ Format.book_id f = Book.id b
                          /\ In (Format.mime_type f)
                                (parse_comma_separated (Req.mime_type (plain_texts 1 25))).
Proof.
  exact (X4_mime_type_filter library (plain_texts 1 25) _ eq_refl eq_refl).
Defined.

(** X5.  With an [author] filter whose tokens contain none of the characters
    [%], [_] and backslash, the books selected are those the same request
    without it selects and that have an associated author whose name
    contains one of the tokens, the case of letters being ignored. *)
Theorem X5_author_filter db rq q :
  compose_query rq = inr q ->
  author_active rq ->
  (forall t, In t (parse_comma_separated (Req.author rq)) -> plain t = true) ->
  exists q',
    compose_query (without_author rq) = inr q'
    /\ forall b,
         In b (Q.selected db q)
         <-> In b (Q.selected db q')
             /\ exists t a,
                  In t (parse_comma_separated (Req.author rq))
                  /\ In a (authors db)
                  /\ In (Book.id b, Author.id a) (book_authors db)
                  /\ icontains (Author.name a) t.
Proof.
  intros Hq Hact Hplain.
  destruct (compose_query_same_book_id rq (without_author rq) q eq_refl Hq)
    as [q' Hq'].
  exists q'. split; [exact Hq'|]. intros b.
  rewrite (selected_iff db rq q b Hq), (selected_iff db _ q' b Hq').
  rewrite satisfies_without_author. unfold author_predicate, like_token. split.
  - intros [Hb [Hs Hp]]. split; [tauto|].
    destruct (Hp Hact) as [t [Ht [a [H1 [H2 H3]]]]]. exists t, a.
    repeat split; auto. now apply (ilike_percent_plain _ _ (Hplain t Ht)).
  - intros [[Hb Hs] [t [a [Ht [H1 [H2 H3]]]]]].
    split; [assumption|]. split; [assumption|].
    intros _. exists t. split; [assumption|]. exists a. repeat split; auto.
    now apply (ilike_percent_plain _ _ (Hplain t Ht)).
Qed.

Lemma X5_witness :
  exists q',
    compose_query (without_author (only_author "TOLSTOY, melville")) = inr q'
    /\ forall b,
         In b (selected_of library (only_author "TOLSTOY, melville"))
         <-> In b (Q.selected library q')
             /\ exists t a,
                  In t (parse_comma_separated
                          (Req.author (only_author "TOLSTOY, melville")))
                  /\ In a (authors library)
                  /\ In (Book.id b, Author.id a) (book_authors library)
                  /\ icontains (Author.name a) t.
Proof.
  apply (X5_author_filter library (only_author "TOLSTOY, melville")).
  - reflexivity.
  - discriminate.
  - intros t [<- | [<- | []]]; reflexivity.
Defined.

(** X6.  With a [title] filter whose tokens contain none of the characters
    [%], [_] and backslash, the books selected are those the same request
    without it selects and whose title is present and contains one of the
    tokens, the case of letters being ignored. *)
Theorem X6_title_filter db rq q :
  compose_query rq = inr q ->
  title_active rq ->
  (forall t, In t (parse_comma_separated (Req.title rq)) -> plain t = true) ->
  exists q',
    compose_query (without_title rq) = inr q'
    /\ forall b,
         In b (Q.selected db q)
         <-> In b (Q.selected db q')
             /\ exists t s,
                  In t (parse_comma_separated (Req.title rq))
                  /\ Book.title b = Some s
                  /\ icontains s t.
Proof.
  intros Hq Hact Hplain.
  destruct (compose_query_same_book_id rq (without_title rq) q eq_refl Hq)
    as [q' Hq'].
  exists q'. split; [exact Hq'|]. intros b.
  rewrite (selected_iff db rq q b Hq), (selected_iff db _ q' b Hq').
  rewrite satisfies_without_title. unfold title_predicate, like_token. split.
  - intros [Hb [Hs Hp]]. split; [tauto|].
    destruct (Hp Hact) as [t [Ht [s [H1 H2]]]]. exists t, s.
    repeat split; auto. now apply (ilike_percent_plain _ _ (Hplain t Ht)).
  - intros [[Hb Hs] [t [s [Ht [H1 H2]]]]].
    split; [assumption|]. split; [assumption|].
    intros _. exists t. split; [assumption|]. exists s. split; [assumption|].
    now apply (ilike_percent_plain _ _ (Hplain t Ht)).
Qed.

Lemma X6_witness :
  exists q',
    compose_query (without_title (only_title "DICK, peace")) = inr q'
    /\ forall b,
         In b (selected_of library (only_title "DICK, peace"))
         <-> In b (Q.selected library q')
             /\ exists t s,
                  In t (parse_comma_separated (Req.title (only_title "DICK, peace")))
                  /\ Book.title b = Some s
                  /\ icontains s t.
Proof.
  apply (X6_title_filter library (only_title "DICK, peace")).
  - reflexivity.
  - discriminate.
  - intros t [<- | [<- | []]]; reflexivity.
Defined.

(** X7.  A book without a title is never selected by a request with a title
    filter, whatever the tokens are. *)
Theorem X7_no_title_no_match db rq q b :
  compose_query rq = inr q ->
  title_active rq ->
  Book.title b = None ->
  ~ In b (Q.selected db q).
Proof.
  intros Hq Hact Hnone Hb. apply (selected_iff db rq q b Hq) in Hb as [_ Hs].
  destruct Hs as [_ [_ [_ [_ [_ Ht]]]]].
  destruct (Ht Hact) as [t [_ [s [E _]]]]. congruence.
Qed.

Lemma X7_witness :
  In anonymous (books library_with_anonymous)
  /\ ~ In anonymous (selected_of library_with_anonymous (only_title "%")).
Proof.
  split; [right; right; right; now left|].
  apply (X7_no_title_no_match library_with_anonymous (only_title "%") _ anonymous
           eq_refl).
  - discriminate.
  - reflexivity.
Defined.

(** The pattern [%%%] matches every title there is, the empty one too, and
    the book without a title is left out. *)
Example title_wildcard_skips_the_untitled :
  map Book.id (books library_with_anonymous) = [1; 2; 3; 4]
  /\ map Book.id (selected_of library_with_anonymous (only_title "%")) = [1; 2; 3].
Proof. split; reflexivity. Qed.

Example title_examples :
  map (fun words => map Book.id (selected_of library (only_title words)))
      ["DICK, peace"; "and"; "%"; "moby dick"; "x"]
  = [[1; 2]; [2]; [1; 2; 3]; [1]; []].
Proof. reflexivity. Qed.

(** ** Tokens that differ only in case, order or repetition *)

Lemma title_predicate_lower rq b :
  title_predicate rq b
  <-> exists u, In u (map Sql.lower (parse_comma_separated (Req.title rq)))
                /\ exists s, Book.title b = Some s
                             /\ Sql.like (percent u) (Sql.lower s) = true.
Proof.
  unfold title_predicate, like_token, ilike. split.
  - intros [t [Ht [s [E H]]]]. exists (Sql.lower t). split; [now apply in_map|].
    exists s. split; [assumption|]. now rewrite <- lower_percent.
  - intros [u [Hu [s [E H]]]]. apply in_map_iff in Hu as [t [<- Ht]].
    exists t. split; [assumption|]. exists s. split; [assumption|].
    now rewrite lower_percent.
Qed.

(** X8.  The case of the letters of a title token does not matter: two
    requests that differ only in their [title] value, with the same tokens
    up to case, select the same books. *)
Theorem X8_title_tokens_ignore_case db rq v v' q q' :
  compose_query (with_title rq v) = inr q ->
  compose_query (with_title rq v') = inr q' ->
  map Sql.lower (parse_comma_separated v) = map Sql.lower (parse_comma_separated v') ->
  forall b, In b (Q.selected db q) <-> In b (Q.selected db q').
Proof.
  intros Hq Hq' E b.
  rewrite (selected_iff db _ q b Hq), (selected_iff db _ q' b Hq').
  rewrite !satisfies_with_title, !title_predicate_lower.
  unfold title_active. cbn [with_title Req.title].
  assert (Hnil : parse_comma_separated v <> [] <-> parse_comma_separated v' <> []).
  { rewrite <- (map_eq_nil_iff Sql.lower (parse_comma_separated v)).
    rewrite <- (map_eq_nil_iff Sql.lower (parse_comma_separated v')).
    now rewrite E. }
  rewrite E. tauto.
Qed.

Lemma X8_witness :
  In war_and_peace
     (selected_of library (with_title (only_language "fr") (Some "War")))
  <-> In war_and_peace
         (selected_of library (with_title (only_language "fr") (Some "wAR"))).
Proof.
  exact (X8_title_tokens_ignore_case library (only_language "fr")
           (Some "War") (Some "wAR") _ _ eq_refl eq_refl eq_refl war_and_peace).
Defined.

(** X9.  Only the set of language codes matters: two requests that differ
    only in their [language] value, both given and with the same tokens up
    to order and repetition, select the same books. *)
Theorem X9_language_tokens_as_a_set db rq v v' q q' :
  compose_query (with_language rq v) = inr q ->
  compose_query (with_language rq v') = inr q' ->
  Py.truthy v = true -> Py.truthy v' = true ->
  (forall t, In t (parse_comma_separated v) <-> In t (parse_comma_separated v')) ->
  forall b, In b (Q.selected db q) <-> In b (Q.selected db q').
Proof.
  intros Hq Hq' Hv Hv' E b.
  rewrite (selected_iff db _ q b Hq), (selected_iff db _ q' b Hq').
  rewrite !satisfies_with_language.
  unfold language_active, language_predicate. cbn [with_language Req.language].
  rewrite Hv, Hv'.
  assert (Hp : (exists l, In l (languages db)
                          /\ In (Book.id b, Language.id l) (book_languages db)
                          /\ In (Language.code l) (parse_comma_separated v))
               <-> (exists l, In l (languages db)
                              /\ In (Book.id b, Language.id l) (book_languages db)
                              /\ In (Language.code l) (parse_comma_separated v'))).
  { split; intros [l [H1 [H2 H3]]]; exists l; repeat split; auto; now apply E. }
  tauto.
Qed.

Lemma X9_witness :
  In untitled (selected_of library (with_language (no_filters 1 25) (Some "fr,en")))
  <-> In untitled (selected_of library
                     (with_language (no_filters 1 25) (Some "en, fr ,en"))).
Proof.
  apply (X9_language_tokens_as_a_set library (no_filters 1 25)
           (Some "fr,en") (Some "en, fr ,en") _ _ eq_refl eq_refl eq_refl eq_refl).
  intros t. simpl. tauto.
Defined.

(** ** The size of a response *)

(** X10.  [count] never exceeds the number of books in the store, whatever
    the filters and however many related rows a book has. *)
Theorem X10_count_is_bounded arrival db rq resp :
  get_books arrival db rq = inr resp ->
  0 <= count resp <= Z.of_nat (List.length (books db)).
Proof.
  intros H. apply get_books_inr in H as [q [Hq [_ [_ [Hc _]]]]].
  rewrite Hc. split; [lia|]. apply Nat2Z.inj_le. apply NoDup_incl_length.
  - now apply (selected_composed_NoDup db rq).
  - apply selected_incl_books.
Qed.

Lemma X10_witness :
  0 <= count_of (get_books in_store_order library (plain_texts 1 25))
    <= Z.of_nat (List.length (books library)).
Proof.
  exact (X10_count_is_bounded in_store_order library (plain_texts 1 25) _ eq_refl).
Defined.

Lemma page_books_length arrival db q p size :
  lossless arrival ->
  List.length (page_books arrival db q p size)
  = Nat.min (Z.to_nat size)
            (List.length (Q.selected db q) - Z.to_nat ((p - 1) * size)).
Proof.
  intros Ha. unfold page_books.
  now rewrite length_firstn, length_skipn, sorted_selection_length.
Qed.

(** X11.  The number of results is the part of [count] left after the
    offset, cut at [page_size]: a page holds at most [page_size] books and
    every page before the last is full. *)
Theorem X11_results_length arrival db rq resp :
  lossless arrival ->
  get_books arrival db rq = inr resp ->
  Z.of_nat (List.length (results resp))
  = Z.min (Req.page_size rq)
          (Z.max 0 (count resp - (Req.page rq - 1) * Req.page_size rq)).
Proof.
  intros Ha H. apply get_books_inr in H as [q [_ [Hs [Ho [Hc [Hr _]]]]]].
  rewrite Hr, length_map, (page_books_length _ _ _ _ _ Ha), Hc. lia.
Qed.

Lemma X11_witness :
  Z.of_nat (List.length (results_of (get_books in_reverse_order library (no_filters 2 2))))
  = Z.min 2 (Z.max 0 (count_of (get_books in_reverse_order library (no_filters 2 2))
                      - (2 - 1) * 2)).
Proof.
  exact (X11_results_length in_reverse_order library (no_filters 2 2) _
           lossless_in_reverse_order eq_refl).
Defined.

(** X12.  A successful call returns an empty [results] exactly when [page]
    is beyond [total_pages]; in particular every page from 1 to
    [total_pages] has at least one book. *)
Theorem X12_empty_page_iff_beyond arrival db rq resp :
  lossless arrival ->
  get_books arrival db rq = inr resp ->
  (results resp = [] <-> total_pages resp < Req.page rq).
Proof.
  intros Ha H. pose proof (X := H).
  apply get_books_inr in H as [q [_ [Hs [Ho [Hc [Hr [_ Ht]]]]]]].
  assert (Hlen : Z.of_nat (List.length (results resp))
                 = Z.min (Req.page_size rq)
                         (Z.max 0 (count resp - (Req.page rq - 1) * Req.page_size rq))).
  { rewrite Hr, length_map, (page_books_length _ _ _ _ _ Ha), Hc. lia. }
  clear X.
  assert (Hn : 0 <= count resp) by (rewrite Hc; lia).
  set (s := Req.page_size rq) in *. set (c := count resp) in *.
  set (p := Req.page rq) in *.
  pose proof (Z.div_mod (c + s - 1) s ltac:(lia)) as Hd.
  pose proof (Z.mod_pos_bound (c + s - 1) s ltac:(lia)) as Hm.
  rewrite <- Ht in Hd.
  split.
  - intros E. rewrite E in Hlen. simpl in Hlen. nia.
  - intros Hp. destruct (results resp) as [|r l]; [reflexivity|].
    simpl List.length in Hlen. nia.
Qed.

Lemma X12_witness :
  results_of (get_books in_store_order library (no_filters 2 2)) = []
  <-> total_pages_of (get_books in_store_order library (no_filters 2 2)) < 2.
Proof.
  exact (X12_empty_page_iff_beyond in_store_order library (no_filters 2 2) _
           lossless_in_store_order eq_refl).
Defined.

(** ** Popularity, whatever the order of ties *)

Lemma sorted_keys_unique (l l' : list Z) :
  Permutation l l' ->
  StronglySorted Z.ge l -> StronglySorted Z.ge l' -> l = l'.
Proof.
  revert l'. induction l as [|a l IH]; intros l' Hp Hs Hs'.
  - apply Permutation_nil in Hp. now subst.
  - destruct l' as [|a' l'].
    + apply Permutation_sym, Permutation_nil in Hp. discriminate.
    + inversion Hs as [|? ? Hl Ha]; subst. inversion Hs' as [|? ? Hl' Ha']; subst.
      rewrite Forall_forall in Ha, Ha'.
      assert (Hin' : In a' (a :: l))
        by (apply (Permutation_in _ (Permutation_sym Hp)); now left).
      assert (Hin : In a (a' :: l')) by (apply (Permutation_in _ Hp); now left).
      assert (E : a = a').
      { apply Z.le_antisymm.
        - destruct Hin as [-> | Hin]; [lia|]. specialize (Ha' _ Hin). lia.
        - destruct Hin' as [-> | Hin']; [lia|]. specialize (Ha _ Hin'). lia. }
      subst a'. f_equal. apply IH; auto. now apply Permutation_cons_inv in Hp.
Qed.

Lemma sorted_desc_keys l :
  sorted_desc l -> StronglySorted Z.ge (map Book.download_count l).
Proof.
  unfold sorted_desc. induction 1 as [|a l Hl IH Ha]; simpl; constructor; auto.
  apply Forall_forall. intros k Hk. apply in_map_iff in Hk as [b [<- Hb]].
  rewrite Forall_forall in Ha. specialize (Ha b Hb).
  unfold by_downloads_desc in Ha. lia.
Qed.

Lemma sorted_selection_keys (a1 a2 : arrival_order) l :
  lossless a1 -> lossless a2 ->
  map Book.download_count (Q.sort_desc (a1 l))
  = map Book.download_count (Q.sort_desc (a2 l)).
Proof.
  intros H1 H2. apply sorted_keys_unique.
  - apply Permutation_map.
    apply (Permutation_trans (Permutation_sym (sort_desc_perm _))).
    apply (Permutation_trans (Permutation_sym (H1 _))).
    apply (Permutation_trans (H2 _)). apply sort_desc_perm.
  - apply sorted_desc_keys, sort_desc_sorted.
  - apply sorted_desc_keys, sort_desc_sorted.
Qed.

(** X13.  Two executions of the same request may order tied books
    differently, but they return books of the store with the same sequence
    of download counts, and the same [count] and [total_pages]. *)
Theorem X13_same_popularity_on_every_run a1 a2 db rq r1 r2 :
  lossless a1 -> lossless a2 ->
  get_books a1 db rq = inr r1 ->
  get_books a2 db rq = inr r2 ->
  count r1 = count r2
  /\ total_pages r1 = total_pages r2
  /\ exists l1 l2,
       results r1 = map (book_response db) l1
       /\ results r2 = map (book_response db) l2
       /\ (forall b, In b l1 \/ In b l2 ->
             In b (books db) /\ satisfies_active_filters db rq b)
       /\ map Book.download_count l1 = map Book.download_count l2.
Proof.
  intros Ha1 Ha2 H1 H2.
  apply get_books_inr in H1 as [q [Hq [_ [_ [Hc1 [Hr1 [_ Ht1]]]]]]].
  apply get_books_inr in H2 as [q' [Hq' [_ [_ [Hc2 [Hr2 [_ Ht2]]]]]]].
  rewrite Hq in Hq'. injection Hq' as <-.
  assert (Hc : count r1 = count r2) by congruence.
  split; [exact Hc|]. split; [now rewrite Ht1, Ht2, Hc|].
  exists (page_books a1 db q (Req.page rq) (Req.page_size rq)),
         (page_books a2 db q (Req.page rq) (Req.page_size rq)).
  split; [exact Hr1|]. split; [exact Hr2|]. split.
  - intros b [Hb | Hb];
      [apply (page_books_incl _ _ _ _ _ Ha1) in Hb
      |apply (page_books_incl _ _ _ _ _ Ha2) in Hb];
      now apply (selected_iff db rq q b Hq).
  - unfold page_books. rewrite <- !firstn_map, <- !skipn_map.
    now rewrite (sorted_selection_keys a1 a2).
Qed.

Lemma X13_witness :
  count_of (get_books in_store_order library (no_filters 2 1))
  = count_of (get_books in_reverse_order library (no_filters 2 1))
  /\ total_pages_of (get_books in_store_order library (no_filters 2 1))
     = total_pages_of (get_books in_reverse_order library (no_filters 2 1))
  /\ exists l1 l2,
       results_of (get_books in_store_order library (no_filters 2 1))
       = map (book_response library) l1
       /\ results_of (get_books in_reverse_order library (no_filters 2 1))
          = map (book_response library) l2
       /\ (forall b, In b l1 \/ In b l2 ->
             In b (books library)
             /\ satisfies_active_filters library (no_filters 2 1) b)
       /\ map Book.download_count l1 = map Book.download_count l2.
Proof.
  exact (X13_same_popularity_on_every_run in_store_order in_reverse_order library
           (no_filters 2 1) _ _
           lossless_in_store_order lossless_in_reverse_order eq_refl eq_refl).
Defined.

(** X14.  The first result of page 1 is a most downloaded book among those
    that satisfy the active filters. *)
Theorem X14_most_downloaded_first arrival db rq resp r rest :
  lossless arrival ->
  get_books arrival db rq = inr resp ->
  Req.page rq = 1 ->
  results resp = r :: rest ->
  exists b,
    r = book_response db b
    /\ In b (books db) /\ satisfies_active_filters db rq b
    /\ forall b', In b' (books db) -> satisfies_active_filters db rq b' ->
                  Book.download_count b' <= Book.download_count b.
Proof.
  intros Ha H Hp Hres.
  apply get_books_inr in H as [q [Hq [Hs [_ [_ [Hr _]]]]]].
  rewrite Hres in Hr. unfold page_books in Hr. rewrite Hp in Hr.
  change (Z.to_nat ((1 - 1) * Req.page_size rq)) with (Z.to_nat (0 * Req.page_size rq)) in Hr.
  rewrite Z.mul_0_l in Hr. cbn [Z.to_nat skipn] in Hr.
  pose proof (sort_desc_sorted (arrival (Q.selected db q))) as Hsorted.
  assert (Hperm : Permutation (Q.selected db q)
                              (Q.sort_desc (arrival (Q.selected db q))))
    by (apply (Permutation_trans (Ha _)); apply sort_desc_perm).
  destruct (Q.sort_desc (arrival (Q.selected db q))) as [|b L].
  - rewrite firstn_nil in Hr. discriminate Hr.
  - destruct (Z.to_nat (Req.page_size rq)) as [|n]; [discriminate Hr|].
    simpl in Hr. injection Hr as Hr _. exists b. split; [exact Hr|].
    assert (Hb : In b (Q.selected db q))
      by (apply (Permutation_in _ (Permutation_sym Hperm)); now left).
    apply (selected_iff db rq q b Hq) in Hb as [Hb Hsat].
    split; [assumption|]. split; [assumption|].
    intros b' Hb' Hsat'.
    assert (Hin : In b' (b :: L)).
    { apply (Permutation_in _ Hperm). apply (selected_iff db rq q b' Hq). now split. }
    destruct Hin as [<- | Hin]; [lia|].
    inversion Hsorted as [|? ? _ Hall]; subst.
    rewrite Forall_forall in Hall. apply (Hall b' Hin).
Qed.

Lemma X14_witness :
  exists b,
    book_response library moby_dick = book_response library b
    /\ In b (books library) /\ satisfies_active_filters library (no_filters 1 2) b
    /\ forall b', In b' (books library) ->
                  satisfies_active_filters library (no_filters 1 2) b' ->
                  Book.download_count b' <= Book.download_count b.
Proof.
  exact (X14_most_downloaded_first in_reverse_order library (no_filters 1 2) _ _ _
           lossless_in_reverse_order eq_refl eq_refl eq_refl).
Defined.

(** ** What a response shows of the filters *)

Lemma result_is_selected arrival db rq resp r :
  lossless arrival ->
  get_books arrival db rq = inr resp ->
  In r (results resp) ->
  exists b, r = book_response db b /\ In b (books db)
            /\ satisfies_active_filters db rq b.
Proof.
  intros Ha H Hr. apply get_books_inr in H as [q [Hq [_ [_ [_ [E _]]]]]].
  rewrite E in Hr. apply in_map_iff in Hr as [b [<- Hb]].
  apply (page_books_incl _ _ _ _ _ Ha) in Hb.
  apply (selected_iff db rq q b Hq) in Hb as [Hb Hs]. now exists b.
Qed.

(** X15.  With a [language] filter, the [languages] field of every result
    contains one of the codes asked for. *)
Theorem X15_languages_field_shows_the_filter arrival db rq resp r :
  lossless arrival ->
  get_books arrival db rq = inr resp ->
  language_active rq ->
  In r (results resp) ->
  exists t, In t (parse_comma_separated (Req.language rq)) /\ In t (br_languages r).
Proof.
  intros Ha H Hact Hr.
  destruct (result_is_selected _ _ _ _ _ Ha H Hr) as [b [-> [Hb Hs]]].
  destruct Hs as [_ [Hl _]]. destruct (Hl Hact) as [l [H1 [H2 H3]]].
  exists (Language.code l). split; [assumption|].
  cbn [br_languages book_response]. apply in_map. apply in_loaded. now split.
Qed.

Lemma X15_witness :
  exists t, In t (parse_comma_separated (Req.language english_moby))
            /\ In t (br_languages (book_response library moby_dick)).
Proof.
  apply (X15_languages_field_shows_the_filter in_store_order library english_moby _ _
           lossless_in_store_order eq_refl eq_refl).
  now left.
Defined.

(** X16.  With a [mime_type] filter, every result has a download link whose
    mime type is one of those asked for, and every download link of a result
    belongs to a format of that book. *)
Theorem X16_download_links_show_the_filter arrival db rq resp r :
  lossless arrival ->
  get_books arrival db rq = inr resp ->
  mime_type_active rq ->
  In r (results resp) ->
  (exists link, In link (br_download_links r)
                /\ In (dl_mime_type link) (parse_comma_separated (Req.mime_type rq)))
  /\ (forall link, In link (br_download_links r) ->
        exists f, In f (formats db) /\ Format.book_id f = br_id r
                  /\ dl_mime_type link = Format.mime_type f
                  /\ dl_url link = Format.url f).
Proof.
  intros Ha H Hact Hr.
  destruct (result_is_selected _ _ _ _ _ Ha H Hr) as [b [-> [Hb Hs]]].
  destruct Hs as [_ [_ [Hm _]]]. destruct (Hm Hact) as [f [H1 [H2 H3]]]. split.
  - exists {| dl_mime_type := Format.mime_type f; dl_url := Format.url f |}.
    split; [|exact H3]. cbn [br_download_links book_response].
    apply in_map_iff. exists f. split; [reflexivity|].
    apply in_Book_formats. now split.
  - intros link Hl. cbn [br_download_links book_response br_id] in *.
    apply in_map_iff in Hl as [g [<- Hg]]. apply in_Book_formats in Hg as [G1 G2].
    now exists g.
Qed.

Lemma X16_witness :
  (exists link, In link (br_download_links (book_response library war_and_peace))
                /\ In (dl_mime_type link)
                      (parse_comma_separated (Req.mime_type (plain_texts 1 25))))
  /\ (forall link, In link (br_download_links (book_response library war_and_peace)) ->
        exists f, In f (formats library)
                  /\ Format.book_id f = br_id (book_response library war_and_peace)
                  /\ dl_mime_type link = Format.mime_type f
                  /\ dl_url link = Format.url f).
Proof.
  apply (X16_download_links_show_the_filter in_store_order library (plain_texts 1 25)
           _ _ lossless_in_store_order eq_refl eq_refl).
  right. now left.
Defined.

(** X17.  With a [book_id] filter, the id of every result is one of the
    integers given, so a response never has more results than the parameter
    has tokens. *)
Theorem X17_ids_are_among_those_asked arrival db rq resp :
  lossless arrival ->
  primary_key db ->
  get_books arrival db rq = inr resp ->
  book_id_active rq ->
  exists ids,
    Py.map_raise Py.int (parse_comma_separated (Req.book_id rq)) = Some ids
    /\ (forall r, In r (results resp) -> In (br_id r) ids)
    /\ (List.length (results resp)
        <= List.length (parse_comma_separated (Req.book_id rq)))%nat.
Proof.
  intros Ha Hk H Hact. pose proof H as H0.
  apply get_books_inr in H as [q [Hq [_ [_ [_ [Hr _]]]]]].
  assert (Hids : exists ids,
             Py.map_raise Py.int (parse_comma_separated (Req.book_id rq)) = Some ids).
  { rewrite compose_query_closed_form in Hq. unfold book_id_filter in Hq.
    rewrite Hact in Hq.
    destruct (Py.map_raise Py.int (parse_comma_separated (Req.book_id rq)));
      [eauto | discriminate]. }
  destruct Hids as [ids Hids]. exists ids. split; [exact Hids|].
  assert (Hall : forall r, In r (results resp) -> In (br_id r) ids).
  { intros r Hin.
    destruct (result_is_selected _ _ _ _ _ Ha H0 Hin) as [b [-> [Hb Hs]]].
    destruct Hs as [Hi _]. destruct (Hi Hact) as [ids' [E Hin']].
    rewrite Hids in E. injection E as <-. exact Hin'. }
  split; [exact Hall|].
  assert (Hlen : List.length ids
                 = List.length (parse_comma_separated (Req.book_id rq))).
  { clear -Hids. revert ids Hids.
    induction (parse_comma_separated (Req.book_id rq)) as [|t l IH]; intros ids E.
    - injection E as <-. reflexivity.
    - simpl in E. destruct (Py.int t); [|discriminate].
      destruct (Py.map_raise Py.int l) as [ys|]; [|discriminate].
      injection E as <-. simpl. f_equal. now apply IH. }
  rewrite <- Hlen, <- (length_map br_id).
  apply NoDup_incl_length.
  - rewrite Hr, response_ids. now apply (page_books_ids_NoDup arrival db rq).
  - intros i Hi. apply in_map_iff in Hi as [r [<- Hin]]. now apply Hall.
Qed.

Lemma X17_witness :
  exists ids,
    Py.map_raise Py.int (parse_comma_separated (Req.book_id (only_book_id "3, 1, 7")))
    = Some ids
    /\ (forall r, In r (results_of (get_books in_store_order library
                                      (only_book_id "3, 1, 7"))) ->
                  In (br_id r) ids)
    /\ (List.length (results_of (get_books in_store_order library
                                   (only_book_id "3, 1, 7")))
        <= List.length (parse_comma_separated
                          (Req.book_id (only_book_id "3, 1, 7"))))%nat.
Proof.
  exact (X17_ids_are_among_those_asked in_store_order library (only_book_id "3, 1, 7") _
           lossless_in_store_order primary_key_library eq_refl eq_refl).
Defined.

(** X18.  The [title] of a result is never empty: it is the stored title
    when the book has a non-empty one, and "Unknown" otherwise. *)
Theorem X18_title_is_never_empty arrival db rq resp r :
  lossless arrival ->
  get_books arrival db rq = inr resp ->
  In r (results resp) ->
  br_title r <> ""
  /\ exists b, In b (books db) /\ br_id r = Book.id b
               /\ (forall s, Book.title b = Some s -> s <> "" -> br_title r = s)
               /\ (br_title r = "Unknown"
                   \/ Book.title b = Some (br_title r)).
Proof.
  intros Ha H Hr.
  destruct (result_is_selected _ _ _ _ _ Ha H Hr) as [b [-> [Hb _]]].
  cbn [br_title br_id book_response]. unfold title_or_Unknown. split.
  - destruct (Book.title b) as [[|c s]|]; simpl; discriminate.
  - exists b. split; [assumption|]. split; [reflexivity|]. split.
    + intros s E Hne. rewrite E. destruct s; [congruence | reflexivity].
    + destruct (Book.title b) as [[|c s]|]; simpl; auto.
Qed.

Lemma X18_witness :
  br_title (book_response library untitled) <> ""
  /\ exists b, In b (books library)
               /\ br_id (book_response library untitled) = Book.id b
               /\ (forall s, Book.title b = Some s -> s <> "" ->
                             br_title (book_response library untitled) = s)
               /\ (br_title (book_response library untitled) = "Unknown"
                   \/ Book.title b = Some (br_title (book_response library untitled))).
Proof.
  apply (X18_title_is_never_empty in_store_order library (no_filters 1 25) _ _
           lossless_in_store_order eq_refl).
  right. right. now left.
Defined.

(** ** A malformed [book_id] *)

(** X19.  When a token of [book_id] is not accepted by [int], [get_books]
    raises [ValueError] for every store and every window, and whatever the
    other parameters are: the tokens are converted before any query is
    built. *)
Theorem X19_malformed_book_id_always_raises arrival db rq t :
  In t (parse_comma_separated (Req.book_id rq)) ->
  Py.int t = None ->
  forall p size,
    get_books arrival db (with_window rq p size) = inl ValueError.
Proof.
  intros Ht Hf p size. now apply (malformed_book_id_raises arrival db _ t).
Qed.

Lemma X19_witness :
  get_books in_reverse_order library_with_anonymous
            (with_window (only_book_id "1, 2x ,3") far_page 0)
  = inl ValueError.
Proof.
  apply (X19_malformed_book_id_always_raises in_reverse_order library_with_anonymous
           (only_book_id "1, 2x ,3") "2x").
  - right. now left.
  - reflexivity.
Defined.

(** ** Walking the pages when the order of ties changes between requests *)

Lemma keys_sorted_desc l :
  StronglySorted Z.ge (map Book.download_count l) -> sorted_desc l.
Proof.
  unfold sorted_desc. induction l as [|a l IH]; simpl; intros H; [constructor|].
  inversion H as [|? ? Hl Ha]; subst. constructor; [now apply IH|].
  apply Forall_forall. intros b Hb. rewrite Forall_forall in Ha.
  specialize (Ha (Book.download_count b) (in_map _ _ _ Hb)).
  unfold by_downloads_desc. lia.
Qed.

(** X20.  Whatever order the store gives to tied books at each page request,
    the results of pages 1 to [total_pages] put end to end have [count]
    entries, each a book that satisfies the active filters, in decreasing
    order of [download_count]. *)
Theorem X20_walk_is_sorted_and_complete_in_number arrival db rq first :
  (forall p, lossless (arrival p)) ->
  get_books (arrival 1%nat) db (with_page rq 1) = inr first ->
  exists l,
    walk_pages arrival db rq = map (book_response db) l
    /\ Z.of_nat (List.length l) = count first
    /\ sorted_desc l
    /\ forall b, In b l -> In b (books db) /\ satisfies_active_filters db rq b.
Proof.
  intros Ha H. pose proof H as H0.
  pose proof (get_books_inr_bounds _ _ _ _ H) as [Bc [_ Bs]].
  apply get_books_inr in H as [q [Hq [Hs [_ [Hc [_ [_ Ht]]]]]]].
  rewrite compose_query_with_page in Hq.
  cbn [with_page Req.page_size] in Hs, Ht, Bs.
  set (size := Req.page_size rq) in *.
  set (k := Z.to_nat (total_pages first)).
  set (K := map Book.download_count (Q.sort_desc (arrival 1%nat (Q.selected db q)))).
  set (l := flat_map (fun p => page_books (arrival p) db q (Z.of_nat p) size)
                     (seq 1 k)).
  destruct (total_pages_cover (count first) size) as [Htp Hcover];
    [rewrite Hc; lia | assumption |].
  rewrite <- Ht in Htp, Hcover.
  assert (Hlast : (total_pages first - 1) * size < count first).
  { pose proof (Z.div_mod (count first + size - 1) size ltac:(lia)) as Hd.
    pose proof (Z.mod_pos_bound (count first + size - 1) size ltac:(lia)) as Hm.
    rewrite <- Ht in Hd. nia. }
  assert (Hkeys : map Book.download_count l = K).
  { unfold l. rewrite <- flat_map_map.
    rewrite (flat_map_ext_In _
               (fun p => firstn (Z.to_nat size) (skipn ((p - 1) * Z.to_nat size) K))).
    - rewrite pages_concat, firstn_all2; [reflexivity|].
      unfold K. rewrite length_map, (sorted_selection_length _ _ _ (Ha 1%nat)).
      apply Nat2Z.inj_le. unfold k. rewrite Nat2Z.inj_mul, !Z2Nat.id by lia.
      rewrite <- Hc. exact Hcover.
    - intros p Hp. apply in_seq in Hp. unfold page_books.
      rewrite <- firstn_map, <- skipn_map, page_offset by lia.
      unfold K. now rewrite (sorted_selection_keys (arrival p) (arrival 1%nat)). }
  exists l. split; [|split; [|split]].
  - unfold walk_pages. rewrite H0. cbn [total_pages_of]. fold k. unfold l.
    rewrite <- flat_map_map. apply flat_map_ext_In.
    intros p Hp. apply in_seq in Hp.
    rewrite (get_books_returns (arrival p) db (with_page rq (Z.of_nat p)) q);
      [reflexivity | now rewrite compose_query_with_page | cbn; lia
       | cbn; fold size; lia | rewrite <- Hc; exact Bc
       | cbn; fold size; unfold k in Hp; nia | cbn; fold size; lia].
  - rewrite <- (length_map Book.download_count), Hkeys. unfold K.
    now rewrite length_map, (sorted_selection_length _ _ _ (Ha 1%nat)), Hc.
  - apply keys_sorted_desc. rewrite Hkeys. unfold K.
    apply sorted_desc_keys, sort_desc_sorted.
  - intros b Hb. unfold l in Hb. apply in_flat_map in Hb as [p [_ Hb]].
    apply (page_books_incl _ _ _ _ _ (Ha p)) in Hb.
    now apply (selected_iff db rq q b Hq).
Qed.

Lemma X20_witness :
  exists l,
    walk_pages flips_at_page_three library (no_filters 1 1)
    = map (book_response library) l
    /\ Z.of_nat (List.length l) = 3
    /\ sorted_desc l
    /\ forall b, In b l ->
         In b (books library) /\ satisfies_active_filters library (no_filters 1 1) b.
Proof.
  exact (X20_walk_is_sorted_and_complete_in_number flips_at_page_three library
           (no_filters 1 1) _ lossless_flips_at_page_three eq_refl).
Defined.
